(** * vgd_pavlodar_dump.py: the record extraction engine

    A shallow embedding of [parse_records] and [parse_line] from
    [src/vgd_pavlodar_dump.py], and the properties of the two functions.

    Python [str] values are sequences of Unicode code points, so a string is
    a [list N] here ([len] counts code points, not bytes).  The dictionaries
    returned by [parse_line] are finite maps from field names to strings. *)

From Stdlib Require Import List NArith ZArith String Ascii Lia Bool Arith.
From Stdlib Require Import DecimalString DecimalZ.
From stdpp Require Import base option list gmap strings.
Import ListNotations.

Local Open Scope N_scope.
Local Open Scope list_scope.

(** ** Python strings *)

Definition char := N.
Definition str := list char.

Module Py.

(** Source literals are written as UTF-8 byte strings; [decode] turns the
    bytes into code points, the way the interpreter reads the source file. *)
Fixpoint decode_go (acc : N) (pending : nat) (bs : list N) : str :=
  match bs with
  | [] => []
  | b :: bs' =>
    match pending with
    | S k =>
      let acc' := acc * 64 + b mod 64 in
      match k with
      | O => acc' :: decode_go 0 0 bs'
      | S _ => decode_go acc' k bs'
      end
    | O =>
      if b <? 128 then b :: decode_go 0 0 bs'
      else if b <? 224 then decode_go (b mod 32) 1 bs'
      else if b <? 240 then decode_go (b mod 16) 2 bs'
      else decode_go (b mod 8) 3 bs'
    end
  end.

Definition decode (s : string) : str :=
  decode_go 0 0 (List.map N_of_ascii (list_ascii_of_string s)).

(** [str.isspace] for one character, which is also the class [\s] of [re] on
    [str] patterns and the set [str.strip] and [str.split] work with. *)
Definition isspace (c : char) : bool :=
  ((9 <=? c) && (c <=? 13)) || ((28 <=? c) && (c <=? 32))
  || (c =? 133) || (c =? 160) || (c =? 5760)
  || ((8192 <=? c) && (c <=? 8202))
  || (c =? 8232) || (c =? 8233) || (c =? 8239) || (c =? 8287)
  || (c =? 12288).

(** The code points of the digit zero of every decimal script (general
    category Nd, Unicode 14); each is followed by its digits one to nine. *)
Definition DECIMAL_ZEROS : list N :=
  [ 48; 1632; 1776; 1984; 2406; 2534; 2662; 2790; 2918; 3046; 3174; 3302;
    3430; 3558; 3664; 3792; 3872; 4160; 4240; 6112; 6160; 6470; 6608; 6784;
    6800; 6992; 7088; 7232; 7248; 42528; 43216; 43264; 43472; 43504; 43600;
    44016; 65296; 66720; 68912; 69734; 69872; 69942; 70096; 70384; 70736;
    70864; 71248; 71360; 71472; 71904; 72016; 72784; 73040; 73120; 92768;
    92864; 93008; 120782; 120792; 120802; 120812; 120822; 123200; 123632;
    125264; 130032 ].

(** [str.isdecimal] for one character: the class [\d] of [re] on [str]
    patterns. *)
Definition isdecimal (c : char) : bool :=
  existsb (fun z => (z <=? c) && (c <=? z + 9)) DECIMAL_ZEROS.

(** The line boundaries of [str.splitlines]. *)
Definition islinebreak (c : char) : bool :=
  ((10 <=? c) && (c <=? 13)) || ((28 <=? c) && (c <=? 30))
  || (c =? 133) || (c =? 8232) || (c =? 8233).

(** [s.lstrip()], [s.rstrip()], [s.strip()] *)
Fixpoint lstrip (s : str) : str :=
  match s with
  | [] => []
  | c :: s' => if isspace c then lstrip s' else s
  end.

Fixpoint rstrip (s : str) : str :=
  match s with
  | [] => []
  | c :: s' =>
    match rstrip s' with
    | [] => if isspace c then [] else [c]
    | t => c :: t
    end
  end.

Definition strip (s : str) : str := rstrip (lstrip s).

(** [s.split()]: the maximal runs of non-whitespace characters.  [tok] holds
    the characters of the run being read. *)
Definition emit (tok : str) : list str :=
  match tok with [] => [] | _ => [tok] end.

Fixpoint split_from (tok : str) (s : str) : list str :=
  match s with
  | [] => emit tok
  | c :: s' =>
    if isspace c then emit tok ++ split_from [] s'
    else split_from (tok ++ [c]) s'
  end.

Definition split (s : str) : list str := split_from [] s.

(** [sep.join(l)] *)
Fixpoint join (sep : str) (l : list str) : str :=
  match l with
  | [] => []
  | x :: l' =>
    match l' with
    | [] => x
    | _ :: _ => x ++ sep ++ join sep l'
    end
  end.

(** [s.startswith(p)] *)
Fixpoint startswith (p s : str) : bool :=
  match p, s with
  | [], _ => true
  | _ :: _, [] => false
  | a :: p', b :: s' => (a =? b) && startswith p' s'
  end.

(** [s.find(sub)], with [None] for -1 *)
Fixpoint find (sub s : str) : option nat :=
  if startswith sub s then Some O
  else match s with
       | [] => None
       | _ :: s' => S <$> find sub s'
       end.

(** [sub in s] *)
Definition contains (sub s : str) : bool :=
  match find sub s with Some _ => true | None => false end.

(** [s.split(sep)] for a non-empty [sep] (the empty separator raises
    [ValueError]; the program only ever passes its header marker): cut at
    the leftmost occurrence and go on after it.  Every cut consumes at least
    one character, so [length s] rounds are enough. *)
Fixpoint split_sep_fuel (fuel : nat) (sep s : str) : list str :=
  match find sep s with
  | None => [s]
  | Some i =>
    match fuel with
    | O => [s]
    | S fuel' =>
      take i s :: split_sep_fuel fuel' sep (drop (i + length sep) s)
    end
  end.

Definition split_sep (sep s : str) : list str :=
  split_sep_fuel (length s) sep s.

(** [s.splitlines()]: [cur] holds the characters of the line being read;
    a carriage return directly before a line feed leaves the break to the
    line feed, so that the pair counts once. *)
Definition starts_with_lf (s : str) : bool :=
  match s with
  | c :: _ => c =? 10
  | [] => false
  end.

Fixpoint splitlines_from (cur : str) (s : str) : list str :=
  match s with
  | [] => emit cur
  | c :: s' =>
    if islinebreak c then
      if (c =? 13) && starts_with_lf s' then splitlines_from cur s'
      else cur :: splitlines_from [] s'
    else splitlines_from (cur ++ [c]) s'
  end.

Definition splitlines (s : str) : list str := splitlines_from [] s.

(** [parts[k] if len(parts) > k else ""] *)
Definition item_or_empty (parts : list str) (k : nat) : str :=
  match parts !! k with
  | Some t => t
  | None => []
  end.

End Py.

Notation "'u' s" := (Py.decode s%string) (at level 1, s at level 0, only parsing).

(** ** The program *)

(** A record is the dictionary [parse_line] returns: field name to text. *)
Abbreviation record := (gmap string str).

Definition MARKER : str :=
  u"USER_LAST_NAME USER_NAME USER_TITLE DATE_B NAME_SITE".

(** The three literals whose presence in a line ends a block. *)
Definition TERMINATORS : list str := [u"alexalex1804"; u"##"; u"VGD.ru"].

(** The sex suffixes of the pattern in [parse_line]. *)
Definition GENDER_CODES : list str := [u"дд"; u"мм"; u"жж"].

Definition DOT : char := 46.

(** *** [DATE_PATTERN = re.compile(r"\d{2}\.\d{2}\.\d{2,4}")] *)

(** The number of leading decimal digits of [s], at most [k]: what a greedy
    [\d{0,k}] consumes. *)
Fixpoint digits_upto (k : nat) (s : str) : nat :=
  match k, s with
  | S k', c :: s' => if Py.isdecimal c then S (digits_upto k' s') else O
  | _, _ => O
  end.

(** [DATE_PATTERN.match(s)]: the length of the match at the head of [s].
    The year is the only part of variable length and nothing follows it, so
    the greedy quantifier keeps every digit it can take, up to four. *)
Definition date_match (s : str) : option nat :=
  match s with
  | d1 :: d2 :: p1 :: m1 :: m2 :: p2 :: year =>
    if Py.isdecimal d1 && Py.isdecimal d2 && (p1 =? DOT)
       && Py.isdecimal m1 && Py.isdecimal m2 && (p2 =? DOT)
       && (2 <=? digits_upto 4 year)%nat
    then Some (6 + digits_upto 4 year)%nat
    else None
  | _ => None
  end.

(** [DATE_PATTERN.search(s)]: [(m.start(), m.end())] of the leftmost match. *)
Fixpoint date_search (s : str) : option (nat * nat) :=
  match date_match s with
  | Some n => Some (O, n)
  | None =>
    match s with
    | [] => None
    | _ :: s' =>
      match date_search s' with
      | Some (a, b) => Some (S a, S b)
      | None => None
      end
    end
  end.

(** *** [re.search(r"\s+(дд|мм|жж)\s*$", before_date)] *)

(** The pattern at the head of [s]: one or more whitespace characters, a
    code, then whitespace up to the end.  No code starts with whitespace, so
    [\s+] keeps the whole run; the alternatives are tried in order; [$] also
    matches before a final line feed, which [\s*] takes as whitespace
    anyway.  The result is [m.group(1)]. *)
Definition gender_match (s : str) : option str :=
  match s with
  | c :: _ =>
    if Py.isspace c then
      let t := Py.lstrip s in
      List.find
        (fun g => Py.startswith g t && forallb Py.isspace (drop (length g) t))
        GENDER_CODES
    else None
  | [] => None
  end.

(** [(m.start(), m.group(1))] of the leftmost match. *)
Fixpoint gender_search (s : str) : option (nat * str) :=
  match gender_match s with
  | Some g => Some (O, g)
  | None =>
    match s with
    | [] => None
    | _ :: s' =>
      match gender_search s' with
      | Some (a, g) => Some (S a, g)
      | None => None
      end
    end
  end.

(** *** [parse_line] *)

(** A dictionary display [{k1: v1, ...}]. *)
Definition dict (items : list (string * str)) : record := list_to_map items.

Definition parse_line (line : str) : option record :=
  match date_search line with
  | None =>
    if (length line <? 3)%nat then None
    else Some (dict [("raw", line); ("last_name", []); ("first_name", []);
                     ("patronymic", []); ("date_birth", []); ("place", [])])
  | Some (m_start, m_end) =>
    let date_str := drop m_start (take m_end line) in
    let before_date := Py.strip (take m_start line) in
    let after_date := Py.strip (drop m_end line) in
    let '(gender, before_date) :=
      match gender_search before_date with
      | Some (g_start, code) => (code, Py.strip (take g_start before_date))
      | None => ([], before_date)
      end in
    let parts := Py.split before_date in
    let last_name := Py.item_or_empty parts 0 in
    let first_name := Py.item_or_empty parts 1 in
    let patronymic := Py.item_or_empty parts 2 in
    let extra :=
      if (3 <? length parts)%nat then Py.join (u" ") (drop 3 parts) else [] in
    Some (dict [("last_name", last_name); ("first_name", first_name);
                ("patronymic", patronymic); ("extra", extra);
                ("gender", gender); ("date_birth", date_str);
                ("place", after_date); ("raw", line)])
  end.

(** *** [parse_records] *)

(** ["alexalex1804" in line or "##" in line or "VGD.ru" in line] *)
Definition is_terminator (line : str) : bool :=
  Py.contains (u"alexalex1804") line || Py.contains (u"##") line
  || Py.contains (u"VGD.ru") line.

(** The loop over the lines of one block; [records] is the list the source
    appends to.  A blank line is skipped, a terminator leaves the loop. *)
Fixpoint scan_lines (lines : list str) (records : list (option record))
  : list (option record) :=
  match lines with
  | [] => records
  | line :: lines' =>
    let line := Py.strip line in
    match line with
    | [] => scan_lines lines' records
    | _ :: _ =>
      if is_terminator line then records
      else scan_lines lines' (records ++ [parse_line line])
    end
  end.

(** The loop over [parts[1:]]. *)
Fixpoint scan_parts (parts : list str) (records : list (option record))
  : list (option record) :=
  match parts with
  | [] => records
  | part :: parts' =>
    scan_parts parts' (scan_lines (Py.splitlines (Py.strip part)) records)
  end.

(** [[r for r in records if r]]: [None] and the empty dictionary are false. *)
Definition truthy (r : option record) : option record :=
  match r with
  | Some d => if decide (d = ∅) then None else Some d
  | None => None
  end.

Section Segmenter.

(** [BeautifulSoup(html, "html.parser").get_text("\n")]: the flattening of
    the page to text is the work of the library, taken as given. *)
Variable get_text : str -> str.

Definition parse_records (html : str) : list record :=
  let all_text := get_text html in
  let parts := Py.split_sep MARKER all_text in
  let records := scan_parts (drop 1 parts) [] in
  omap truthy records.

End Segmenter.

(** *** The rows [main] writes *)

Definition FIELDNAMES : list string :=
  ["last_name"; "first_name"; "patronymic"; "extra";
   "gender"; "date_birth"; "place"; "raw"]%string.

(** The row [csv.DictWriter] makes of a record: the values of [fieldnames]
    in order, with the writer's default [restval], the empty string, for a
    key the record lacks. *)
Definition csv_row (r : record) : list str :=
  List.map (fun k => match r !! k with Some v => v | None => [] end)
           FIELDNAMES.

(** *** [fetch_page] and [main] *)

(** [str(n)] for an integer: its decimal digits, after a minus sign when it
    is negative. *)
Definition int_str (n : Z) : str :=
  List.map N_of_ascii
           (list_ascii_of_string (NilEmpty.string_of_int (Z.to_int n))).

(** [BASE_URL], before and after its [{offset}] field. *)
Definition BASE_URL_HEAD : str := u"https://forum.vgd.ru/9103/166633/".
Definition BASE_URL_TAIL : str := u".htm?a=stdforum_view&o=".

(** [BASE_URL.format(offset=offset)] *)
Definition page_url (offset : Z) : str :=
  BASE_URL_HEAD ++ int_str offset ++ BASE_URL_TAIL.

(** What [main] does that the outside sees, in order: a request, the pause
    after a page that failed ([time.sleep(2)]) and the report and pause
    after a page that was read ([time.sleep(DELAY)]). *)
Inductive event : Type :=
| Fetch (url : str)
| PauseSkipped
| PauseFound (found total : nat).

(** The variables of the loop of [main]. *)
Record run : Type := { all_records : list record; trace : list event }.

(** [range(1, n + 1)] *)
Definition page_numbers (n : Z) : list Z :=
  List.map Z.of_nat (seq 1 (Z.to_nat n)).

Section Main.

(** [requests.get(url, headers=HEADERS, timeout=15)] with the response read
    as text, [None] when it raises [RequestException]: the network, taken as
    given. *)
Variable http_get : str -> option str.
Variable get_text : str -> str.

Definition fetch_page (offset : Z) : option str := http_get (page_url offset).

(** One round of the loop. *)
Definition visit (st : run) (page_num : Z) : run :=
  let offset := ((page_num - 1) * 10)%Z in
  match fetch_page offset with
  | None =>
    {| all_records := all_records st;
       trace := trace st ++ [Fetch (page_url offset); PauseSkipped] |}
  | Some html =>
    let records := parse_records get_text html in
    let all := all_records st ++ records in
    {| all_records := all;
       trace := trace st ++ [Fetch (page_url offset);
                             PauseFound (length records) (length all)] |}
  end.

(** The loop over the pages, from empty [all_records]. *)
Definition main_loop (total_pages : Z) : run :=
  fold_left visit (page_numbers total_pages)
            {| all_records := []; trace := [] |}.

(** The rows [main] hands to the writer: [writeheader], then [writerows]. *)
Definition csv_rows (total_pages : Z) : list (list str) :=
  List.map Py.decode FIELDNAMES
  :: List.map csv_row (all_records (main_loop total_pages)).

End Main.

(** The requests of a trace. *)
Definition fetched (t : list event) : list str :=
  omap (fun e => match e with Fetch url => Some url | _ => None end) t.

(** No whitespace in [s]. *)
Definition no_space (s : str) : bool :=
  forallb (fun c => negb (Py.isspace c)) s.

(** No line break in [s]. *)
Definition no_linebreak (s : str) : bool :=
  forallb (fun c => negb (Py.islinebreak c)) s.

(** ** Vocabulary of the specification *)

(** Two digits, a dot, two digits, a dot and a year of exactly [ny] digits. *)
Definition date_shape (ny : nat) (d : str) : bool :=
  match d with
  | d1 :: d2 :: p1 :: m1 :: m2 :: p2 :: year =>
    Py.isdecimal d1 && Py.isdecimal d2 && (p1 =? DOT)
    && Py.isdecimal m1 && Py.isdecimal m2 && (p2 =? DOT)
    && forallb Py.isdecimal year && (length year =? ny)%nat
  | _ => false
  end.

(** A date in the form dd.mm.yy or dd.mm.yyyy. *)
Definition valid_date (d : str) : bool := date_shape 2 d || date_shape 4 d.

(** The line contains a date substring. *)
Definition has_date (line : str) : Prop :=
  exists pre d post, line = pre ++ d ++ post /\ valid_date d = true.

(** [sub] occurs in [s]. *)
Definition occurs (sub s : str) : Prop :=
  exists a b, s = a ++ sub ++ b.

(** The leftmost occurrence of [sub] in [s] is at [pre]. *)
Definition first_occurrence (sub s pre rest : str) : Prop :=
  s = pre ++ sub ++ rest
  /\ forall a b, s = a ++ sub ++ b -> (length pre <= length a)%nat.

(** The gender and the name text [parse_line] works with, given the trimmed
    text before the date. *)
Definition gender_of (b : str) : str :=
  match gender_search b with Some (_, code) => code | None => [] end.

Definition name_text_of (b : str) : str :=
  match gender_search b with
  | Some (g_start, _) => Py.strip (take g_start b)
  | None => b
  end.

(** The name fields of [r] are the tokens [toks], by position. *)
Definition names_are (toks : list str) (r : record) : Prop :=
  r !! "last_name" = Some (Py.item_or_empty toks 0)
  /\ r !! "first_name" = Some (Py.item_or_empty toks 1)
  /\ r !! "patronymic" = Some (Py.item_or_empty toks 2)
  /\ r !! "extra" = Some (Py.join (u" ") (drop 3 toks)).

(** [b] ends with the code [g] after the name text [name] and whitespace. *)
Definition gender_suffix (b name g : str) : Prop :=
  In g GENDER_CODES
  /\ exists ws, ws <> [] /\ forallb Py.isspace ws = true
                /\ b = name ++ ws ++ g.

(** The line gives a record. *)
Definition tokenizes (l : str) : bool :=
  match parse_line l with Some _ => true | None => false end.

(** The candidate lines of one block, in the words of the specification:
    split into lines, trim each, drop the empty ones, stop before the first
    terminator. *)
Fixpoint until_terminator (lines : list str) : list str :=
  match lines with
  | [] => []
  | l :: lines' => if is_terminator l then [] else l :: until_terminator lines'
  end.

Definition nonempty (s : str) : bool :=
  match s with [] => false | _ :: _ => true end.

Definition trimmed_lines (lines : list str) : list str :=
  List.filter nonempty (List.map Py.strip lines).

Definition segment_lines (part : str) : list str :=
  until_terminator (trimmed_lines (Py.splitlines part)).

(** The candidate lines of a document: those of every block after the first
    marker, in order. *)
Definition candidate_lines (all_text : str) : list str :=
  concat (List.map segment_lines (drop 1 (Py.split_sep MARKER all_text))).

(** A page in the shape of the forum's, flattened: page chrome, the header
    marker, two records, the footer and a record after the footer. *)
Definition sample_block : str :=
  [10] ++ u"Иванов Пётр Сергеевич мм 12.03.1920 с. Покровка"
  ++ [10] ++ u"Сидорова Анна дд 01.01.05"
  ++ [10] ++ u"Все права защищены VGD.ru 2020"
  ++ [10] ++ u"Петров Иван 01.02.1930 Павлодар" ++ [10].

Definition sample_document : str :=
  u"Форум genealogy: тема 166633" ++ [10] ++ MARKER ++ sample_block.

(** A network on which the second page cannot be read and every other page
    is the sample document. *)
Definition sample_network (url : str) : option str :=
  if Py.startswith (page_url 10) url then None else Some sample_document.

(** ** Facts about the date pattern *)

Lemma digits_upto_le k s : (digits_upto k s <= k)%nat.
Proof.
  revert s; induction k as [|k IH]; intros [|c s]; simpl; try lia.
  destruct (Py.isdecimal c); [specialize (IH s)|]; lia.
Qed.

Lemma digits_upto_length k s : (digits_upto k s <= length s)%nat.
Proof.
  revert s; induction k as [|k IH]; intros [|c s]; simpl; try lia.
  destruct (Py.isdecimal c); [specialize (IH s)|]; lia.
Qed.

Lemma digits_upto_take k s :
  forallb Py.isdecimal (take (digits_upto k s) s) = true.
Proof.
  revert s; induction k as [|k IH]; intros [|c s]; simpl; try reflexivity.
  destruct (Py.isdecimal c) eqn:E; simpl; [|reflexivity].
  rewrite E, IH. reflexivity.
Qed.

(** A run of digits at the head is taken whole, up to the bound. *)
Lemma digits_upto_app k y post :
  forallb Py.isdecimal y = true ->
  (Nat.min k (length y) <= digits_upto k (y ++ post))%nat.
Proof.
  revert y; induction k as [|k IH]; intros [|c y] H; simpl in *; try lia.
  apply andb_true_iff in H as [Hc Hy]. rewrite Hc.
  specialize (IH y Hy). lia.
Qed.

(** The greedy year stops at a character that is no digit, or at four. *)
Lemma digits_upto_stop k s :
  (digits_upto k s < k)%nat ->
  match drop (digits_upto k s) s with
  | c :: _ => Py.isdecimal c = false
  | [] => True
  end.
Proof.
  revert s; induction k as [|k IH]; intros [|c s]; simpl; try lia; auto.
  destruct (Py.isdecimal c) eqn:E; simpl; auto.
  intros H. apply IH. lia.
Qed.

Lemma date_shape_length ny d : date_shape ny d = true -> length d = (6 + ny)%nat.
Proof.
  destruct d as [|d1 [|d2 [|p1 [|m1 [|m2 [|p2 year]]]]]]; simpl; try discriminate.
  intros H. apply andb_true_iff in H as [_ H].
  apply Nat.eqb_eq in H. lia.
Qed.

(** What a match of the pattern at the head of [s] is: a dd.mm. prefix and a
    year of two to four digits, as long as the digits go. *)
Lemma date_match_Some s n :
  date_match s = Some n ->
  (8 <= n <= 10)%nat /\ (n <= length s)%nat
  /\ date_shape (n - 6) (take n s) = true
  /\ ((n < 10)%nat ->
      match drop n s with c :: _ => Py.isdecimal c = false | [] => True end).
Proof.
  destruct s as [|d1 [|d2 [|p1 [|m1 [|m2 [|p2 year]]]]]]; try discriminate.
  unfold date_match.
  pose proof (digits_upto_le 4 year) as Hle.
  pose proof (digits_upto_length 4 year) as Hlen.
  pose proof (digits_upto_take 4 year) as Hdig.
  pose proof (digits_upto_stop 4 year) as Hstop.
  remember (digits_upto 4 year) as k eqn:Hk. clear Hk.
  destruct (Py.isdecimal d1 && Py.isdecimal d2 && (p1 =? DOT)
            && Py.isdecimal m1 && Py.isdecimal m2 && (p2 =? DOT)) eqn:E;
    cbn [andb]; [|discriminate].
  destruct (2 <=? k)%nat eqn:E2; [|discriminate].
  intros [= <-]. apply Nat.leb_le in E2.
  split; [lia|]. split; [cbn [length]; lia|]. split.
  - cbn [date_shape firstn Nat.sub]. rewrite E, Hdig. cbn [andb].
    apply Nat.eqb_eq. rewrite length_take. lia.
  - intros Hn. apply Hstop. lia.
Qed.

Lemma date_match_prefix s n :
  date_match s = Some n -> valid_date (take 8 s) = true /\ (8 <= length s)%nat.
Proof.
  destruct s as [|d1 [|d2 [|p1 [|m1 [|m2 [|p2 year]]]]]]; try discriminate.
  unfold date_match.
  destruct (Py.isdecimal d1 && Py.isdecimal d2 && (p1 =? DOT)
            && Py.isdecimal m1 && Py.isdecimal m2 && (p2 =? DOT)) eqn:E;
    cbn [andb]; [|discriminate].
  destruct (2 <=? digits_upto 4 year)%nat eqn:E2; [|discriminate].
  intros _. apply Nat.leb_le in E2.
  pose proof (digits_upto_length 4 year) as Hlen.
  destruct year as [|y1 [|y2 year]]; simpl in *; try lia.
  split; [|lia].
  unfold valid_date. simpl. rewrite E. simpl.
  destruct (Py.isdecimal y1); simpl in *; [|lia].
  destruct (Py.isdecimal y2); simpl in *; [|lia].
  reflexivity.
Qed.

(** Wherever a date in either form starts, the pattern matches. *)
Lemma date_match_valid d post :
  valid_date d = true -> is_Some (date_match (d ++ post)).
Proof.
  intros H.
  assert (exists ny, (2 <= ny <= 4)%nat /\ date_shape ny d = true) as (ny & Hny & Hd).
  { unfold valid_date in H.
    apply orb_true_iff in H as [H|H]; [exists 2%nat | exists 4%nat];
      (split; [lia | exact H]). }
  clear H.
  destruct d as [|d1 [|d2 [|p1 [|m1 [|m2 [|p2 year]]]]]]; simpl in Hd; try discriminate.
  apply andb_true_iff in Hd as [Hd Hl]. apply andb_true_iff in Hd as [Hd Hy].
  apply Nat.eqb_eq in Hl.
  pose proof (digits_upto_app 4 year post Hy) as Hge.
  cbn [app]. unfold date_match. rewrite Hd. cbn [andb].
  destruct (2 <=? digits_upto 4 (year ++ post))%nat eqn:E.
  - eexists; reflexivity.
  - apply Nat.leb_gt in E. lia.
Qed.

(** ** Facts about the search for the date *)

Lemma date_search_None s :
  date_search s = None -> forall k, date_match (drop k s) = None.
Proof.
  induction s as [|c s IH]; cbn [date_search].
  - intros _ k. destruct k; reflexivity.
  - destruct (date_match (c :: s)) eqn:E; [discriminate|].
    destruct (date_search s) as [[a b]|] eqn:E'; [discriminate|].
    intros _ [|k]; [exact E | exact (IH eq_refl k)].
Qed.

Lemma date_search_Some s i j :
  date_search s = Some (i, j) ->
  (i <= j)%nat /\ (j <= length s)%nat
  /\ date_match (drop i s) = Some (j - i)%nat
  /\ forall k, (k < i)%nat -> date_match (drop k s) = None.
Proof.
  revert i j; induction s as [|c s IH]; intros i j; cbn [date_search].
  - discriminate.
  - destruct (date_match (c :: s)) as [n|] eqn:E.
    + intros [= <- <-]. apply date_match_Some in E as E1.
      rewrite Nat.sub_0_r. cbn [drop]. repeat split; try lia; try assumption.
    + destruct (date_search s) as [[a b]|] eqn:E'; [|discriminate].
      intros [= <- <-]. destruct (IH a b eq_refl) as (H1 & H2 & H3 & H4).
      cbn [drop length]. repeat split; try lia; try assumption.
      intros [|k] Hk; [exact E | apply H4; lia].
Qed.

(** The search fails exactly on the lines without a date substring. *)
Lemma date_search_None_iff s : date_search s = None <-> ~ has_date s.
Proof.
  split.
  - intros H (pre & d & post & -> & Hd).
    pose proof (date_search_None _ H (length pre)) as Hk.
    rewrite drop_app_length in Hk.
    destruct (date_match_valid d post Hd) as [n Hn]. congruence.
  - intros H. destruct (date_search s) as [[i j]|] eqn:E; [|reflexivity].
    exfalso. apply H.
    destruct (date_search_Some _ _ _ E) as (_ & _ & Hm & _).
    apply date_match_prefix in Hm as [Hv _].
    exists (take i s), (take 8 (drop i s)), (drop 8 (drop i s)).
    split; [|exact Hv].
    rewrite (take_drop 8), (take_drop i). reflexivity.
Qed.

(** ** The two branches of [parse_line] *)

Lemma extra_join (parts : list str) :
  (if (3 <? length parts)%nat then Py.join (u" ") (drop 3 parts) else [])
  = Py.join (u" ") (drop 3 parts).
Proof.
  destruct (3 <? length parts)%nat eqn:E; [reflexivity|].
  apply Nat.ltb_ge in E. rewrite drop_ge by exact E. reflexivity.
Qed.

Lemma parse_line_no_date line :
  date_search line = None ->
  parse_line line =
  if (length line <? 3)%nat then None
  else Some (dict [("raw", line); ("last_name", []); ("first_name", []);
                   ("patronymic", []); ("date_birth", []); ("place", [])]).
Proof. intros H. unfold parse_line. rewrite H. reflexivity. Qed.

Lemma parse_line_date line i j :
  date_search line = Some (i, j) ->
  let b := Py.strip (take i line) in
  let parts := Py.split (name_text_of b) in
  parse_line line =
  Some (dict [("last_name", Py.item_or_empty parts 0);
              ("first_name", Py.item_or_empty parts 1);
              ("patronymic", Py.item_or_empty parts 2);
              ("extra", Py.join (u" ") (drop 3 parts));
              ("gender", gender_of b);
              ("date_birth", drop i (take j line));
              ("place", Py.strip (drop j line)); ("raw", line)]).
Proof.
  intros H. unfold parse_line, gender_of, name_text_of. rewrite H.
  destruct (gender_search (Py.strip (take i line))) as [[p g]|];
    cbv zeta; rewrite extra_join; reflexivity.
Qed.

Lemma dict_full_lookup a b c d e f g h :
  let r := dict [("last_name", a); ("first_name", b); ("patronymic", c);
                 ("extra", d); ("gender", e); ("date_birth", f);
                 ("place", g); ("raw", h)] in
  r !! "last_name" = Some a /\ r !! "first_name" = Some b
  /\ r !! "patronymic" = Some c /\ r !! "extra" = Some d
  /\ r !! "gender" = Some e /\ r !! "date_birth" = Some f
  /\ r !! "place" = Some g /\ r !! "raw" = Some h.
Proof. cbv zeta. repeat split; reflexivity. Qed.

Lemma dict_degraded_lookup h :
  let r := dict [("raw", h); ("last_name", []); ("first_name", []);
                 ("patronymic", []); ("date_birth", []); ("place", [])] in
  r !! "raw" = Some h /\ r !! "last_name" = Some [] /\ r !! "first_name" = Some []
  /\ r !! "patronymic" = Some [] /\ r !! "date_birth" = Some []
  /\ r !! "place" = Some [] /\ r !! "extra" = None /\ r !! "gender" = None.
Proof. cbv zeta. repeat split; reflexivity. Qed.

(** ** Facts about the string operations *)

Module PyFacts.
Import Py.

Lemma lstrip_spaces ws s :
  forallb isspace ws = true -> lstrip (ws ++ s) = lstrip s.
Proof.
  induction ws as [|c ws IH]; cbn [forallb app lstrip]; [reflexivity|].
  intros H. apply andb_true_iff in H as [Hc Hws]. rewrite Hc. auto.
Qed.

Lemma lstrip_decomp s :
  exists ws, s = ws ++ lstrip s /\ forallb isspace ws = true.
Proof.
  induction s as [|c s (ws & Hs & Hws)]; cbn [lstrip].
  - exists []. split; reflexivity.
  - destruct (isspace c) eqn:E.
    + exists (c :: ws). cbn [forallb app]. rewrite E, Hws, <- Hs. auto.
    + exists []. split; reflexivity.
Qed.

Lemma lstrip_head s c t : lstrip s = c :: t -> isspace c = false.
Proof.
  induction s as [|a s IH]; cbn [lstrip]; [discriminate|].
  destruct (isspace a) eqn:E; [exact IH|].
  intros [= <- <-]. exact E.
Qed.

Lemma rstrip_spaces_nil ws : forallb isspace ws = true -> rstrip ws = [].
Proof.
  induction ws as [|c ws IH]; cbn [forallb rstrip]; [reflexivity|].
  intros H. apply andb_true_iff in H as [Hc Hws]. rewrite (IH Hws), Hc.
  reflexivity.
Qed.

Lemma rstrip_spaces s ws :
  forallb isspace ws = true -> rstrip (s ++ ws) = rstrip s.
Proof.
  intros H. induction s as [|c s IH]; cbn [app rstrip].
  - apply rstrip_spaces_nil, H.
  - rewrite IH. reflexivity.
Qed.

Lemma rstrip_decomp s :
  exists ws, s = rstrip s ++ ws /\ forallb isspace ws = true.
Proof.
  induction s as [|c s (ws & Hs & Hws)]; cbn [rstrip].
  - exists []. split; reflexivity.
  - destruct (rstrip s) as [|a t] eqn:E.
    + destruct (isspace c) eqn:Ec.
      * exists (c :: ws). cbn [app forallb]. rewrite Ec, Hws, Hs. auto.
      * exists ws. rewrite Hs at 1. auto.
    + exists ws. rewrite Hs at 1. auto.
Qed.

Lemma rstrip_length s : (length (rstrip s) <= length s)%nat.
Proof.
  destruct (rstrip_decomp s) as (ws & Hs & _).
  rewrite Hs at 2. rewrite length_app. lia.
Qed.

(** Text that ends with a character other than whitespace is kept whole. *)
Lemma rstrip_keep s c : isspace c = false -> rstrip (s ++ [c]) = s ++ [c].
Proof.
  intros Hc. induction s as [|a s IH]; cbn [app rstrip].
  - rewrite Hc. reflexivity.
  - rewrite IH. destruct (s ++ [c]) eqn:E; [|reflexivity].
    destruct s; discriminate.
Qed.

Lemma rstrip_idem s : rstrip (rstrip s) = rstrip s.
Proof.
  induction s as [|c s IH]; cbn [rstrip]; [reflexivity|].
  destruct (rstrip s) as [|a t] eqn:E.
  - destruct (isspace c) eqn:Ec; cbn [rstrip]; [reflexivity|].
    rewrite Ec. reflexivity.
  - cbn [rstrip]. cbn [rstrip] in IH. rewrite IH. reflexivity.
Qed.

Lemma rstrip_strip s : rstrip (strip s) = strip s.
Proof. apply rstrip_idem. Qed.

(** A trimmed text with whitespace at its end has none. *)
Lemma rstrip_fixed_tail s x ws :
  rstrip s = s -> s = x ++ ws -> forallb isspace ws = true -> ws = [].
Proof.
  intros Hs -> Hws. rewrite rstrip_spaces in Hs by exact Hws.
  pose proof (rstrip_length x) as Hl. rewrite Hs, length_app in Hl.
  destruct ws; [reflexivity | cbn [length] in Hl; lia].
Qed.

Lemma strip_decomp s :
  exists w1 w2, s = w1 ++ strip s ++ w2
                /\ forallb isspace w1 = true /\ forallb isspace w2 = true.
Proof.
  destruct (lstrip_decomp s) as (w1 & H1 & Hw1).
  destruct (rstrip_decomp (lstrip s)) as (w2 & H2 & Hw2).
  exists w1, w2. unfold strip. rewrite <- H2. auto.
Qed.

Lemma split_from_spaces tok ws :
  forallb isspace ws = true -> split_from tok ws = emit tok.
Proof.
  revert tok; induction ws as [|c ws IH]; intros tok; cbn [forallb split_from];
    [reflexivity|].
  intros H. apply andb_true_iff in H as [Hc Hws].
  rewrite Hc, (IH [] Hws). apply app_nil_r.
Qed.

Lemma split_from_app_spaces tok s ws :
  forallb isspace ws = true -> split_from tok (s ++ ws) = split_from tok s.
Proof.
  intros H. revert tok; induction s as [|c s IH]; intros tok; cbn [app split_from].
  - apply split_from_spaces, H.
  - destruct (isspace c); rewrite IH; reflexivity.
Qed.

Lemma split_spaces_app ws s :
  forallb isspace ws = true -> split (ws ++ s) = split s.
Proof.
  unfold split. induction ws as [|c ws IH]; cbn [forallb app split_from];
    [reflexivity|].
  intros H. apply andb_true_iff in H as [Hc Hws]. rewrite Hc. exact (IH Hws).
Qed.

Lemma split_app_spaces s ws :
  forallb isspace ws = true -> split (s ++ ws) = split s.
Proof. apply split_from_app_spaces. Qed.

(** Trimming changes no token. *)
Lemma split_strip s : split (strip s) = split s.
Proof.
  destruct (strip_decomp s) as (w1 & w2 & Hs & H1 & H2).
  rewrite Hs at 2.
  rewrite split_spaces_app by exact H1. rewrite split_app_spaces by exact H2.
  reflexivity.
Qed.

Lemma startswith_app p s : startswith p (p ++ s) = true.
Proof.
  induction p as [|a p IH]; cbn [app startswith]; [reflexivity|].
  rewrite N.eqb_refl. exact IH.
Qed.

Lemma startswith_spec p s :
  startswith p s = true <-> exists t, s = p ++ t.
Proof.
  split.
  - revert s; induction p as [|a p IH]; intros s; cbn [startswith].
    + intros _. exists s. reflexivity.
    + destruct s as [|b s]; [discriminate|].
      intros H. apply andb_true_iff in H as [Hab Hp].
      apply N.eqb_eq in Hab as ->. destruct (IH s Hp) as [t ->].
      exists t. reflexivity.
  - intros [t ->]. apply startswith_app.
Qed.

End PyFacts.

(** ** Facts about substring search and the split at the marker *)

Module FindFacts.
Import Py PyFacts.

Lemma find_Some sub s i :
  find sub s = Some i ->
  s = take i s ++ sub ++ drop (i + length sub) s
  /\ forall k, (k < i)%nat -> startswith sub (drop k s) = false.
Proof.
  revert i; induction s as [|c s IH]; intros i; cbn [find].
  - destruct (startswith sub []) eqn:E; [|discriminate].
    intros [= <-]. apply startswith_spec in E as [t Ht].
    split; [|intros; lia].
    symmetry in Ht. apply app_eq_nil in Ht as [-> ->]. reflexivity.
  - destruct (startswith sub (c :: s)) eqn:E.
    + intros [= <-]. split; [|intros; lia].
      apply startswith_spec in E as [t Ht]. rewrite Ht at 1.
      cbn [take app Nat.add]. rewrite Ht, drop_app_length. reflexivity.
    + destruct (find sub s) as [j|] eqn:Ej; [|discriminate].
      intros [= <-]. destruct (IH j eq_refl) as [H1 H2].
      split.
      * cbn [take drop app Nat.add]. rewrite <- H1. reflexivity.
      * intros [|k] Hk; [exact E | apply H2; lia].
Qed.

Lemma find_unfold sub s :
  find sub s =
  if startswith sub s then Some O
  else match s with [] => None | _ :: s' => S <$> find sub s' end.
Proof. destruct s; reflexivity. Qed.

Lemma find_bound sub s i :
  find sub s = Some i -> (i + length sub <= length s)%nat.
Proof.
  revert i; induction s as [|c s IH]; intros i; cbn [find].
  - destruct (startswith sub []) eqn:E; [|discriminate].
    intros [= <-]. apply startswith_spec in E as [t Ht].
    symmetry in Ht. apply app_eq_nil in Ht as [-> _]. cbn [length]. lia.
  - destruct (startswith sub (c :: s)) eqn:E.
    + intros [= <-]. apply startswith_spec in E as [t Ht].
      rewrite Ht, length_app. lia.
    + destruct (find sub s) as [j|] eqn:Ej; [|discriminate].
      intros [= <-]. specialize (IH j eq_refl). cbn [length]. lia.
Qed.

Lemma find_None sub s : find sub s = None -> ~ occurs sub s.
Proof.
  intros H (a & b & ->). revert H.
  induction a as [|c a IH]; cbn [app].
  - rewrite find_unfold, startswith_app. discriminate.
  - cbn [find]. destruct (startswith sub (c :: a ++ sub ++ b)); [discriminate|].
    destruct (find sub (a ++ sub ++ b)); [discriminate|].
    intros _. apply IH. reflexivity.
Qed.

Lemma contains_occurs sub s : contains sub s = true <-> occurs sub s.
Proof.
  unfold contains. destruct (find sub s) as [i|] eqn:E.
  - split; [intros _|reflexivity].
    apply find_Some in E as [E _]. eexists _, _. exact E.
  - split; [discriminate|]. intros H. destruct (find_None _ _ E H).
Qed.

Lemma find_first sub s pre rest :
  first_occurrence sub s pre rest -> find sub s = Some (length pre).
Proof.
  intros [Hs Hmin]. destruct (find sub s) as [i|] eqn:E.
  - pose proof (find_bound _ _ _ E) as Hb.
    apply find_Some in E as [E1 E2]. f_equal.
    assert (length pre <= i)%nat as Hle.
    { specialize (Hmin _ _ E1). rewrite length_take in Hmin. lia. }
    destruct (Nat.eq_dec i (length pre)) as [|Hne]; [assumption|].
    assert (length pre < i)%nat as Hlt by lia.
    specialize (E2 _ Hlt). rewrite Hs, drop_app_length, startswith_app in E2.
    discriminate.
  - exfalso. apply (find_None _ _ E). exists pre, rest. exact Hs.
Qed.

Lemma split_sep_fuel_enough sep n m s :
  sep <> [] -> (length s <= n)%nat -> (length s <= m)%nat ->
  split_sep_fuel n sep s = split_sep_fuel m sep s.
Proof.
  intros Hsep. revert m s; induction n as [|n IH]; intros m s Hn Hm.
  - destruct s; [|cbn [length] in Hn; lia].
    destruct m; cbn [split_sep_fuel]; [reflexivity|].
    destruct (find sep []) as [i|] eqn:E; [|reflexivity].
    apply find_Some in E as [E _]. exfalso.
    symmetry in E. apply app_eq_nil in E as [_ E].
    apply app_eq_nil in E as [E _]. contradiction.
  - cbn [split_sep_fuel]. destruct (find sep s) as [i|] eqn:E.
    + assert (length (drop (i + length sep) s) < length s)%nat as Hlt.
      { apply find_Some in E as [E _]. apply (f_equal length) in E.
        rewrite !length_app in E. rewrite length_drop.
        destruct sep; [contradiction|]. cbn [length] in *. lia. }
      destruct m as [|m]; [lia|]. cbn [split_sep_fuel]. rewrite E.
      f_equal. apply IH; lia.
    + destruct m; cbn [split_sep_fuel]; rewrite ?E; reflexivity.
Qed.

(** The fuel of [split_sep] never runs out: the function cuts at the
    leftmost occurrence and goes on with the rest. *)
Lemma split_sep_eq sep s :
  sep <> [] ->
  split_sep sep s =
  match find sep s with
  | None => [s]
  | Some i => take i s :: split_sep sep (drop (i + length sep) s)
  end.
Proof.
  intros Hsep. unfold split_sep.
  destruct (find sep s) as [i|] eqn:E.
  - assert (length (drop (i + length sep) s) < length s)%nat as Hlt.
    { apply find_Some in E as [E' _]. apply (f_equal length) in E'.
      rewrite !length_app in E'. rewrite length_drop.
      destruct sep; [contradiction|]. cbn [length] in *. lia. }
    destruct (length s) as [|n] eqn:El; [lia|].
    cbn [split_sep_fuel]. rewrite E. f_equal.
    apply split_sep_fuel_enough; [assumption|lia|lia].
  - destruct (length s); cbn [split_sep_fuel]; rewrite E; reflexivity.
Qed.

Lemma split_sep_absent sep s :
  sep <> [] -> ~ occurs sep s -> split_sep sep s = [s].
Proof.
  intros Hsep H. rewrite split_sep_eq by exact Hsep.
  destruct (find sep s) as [i|] eqn:E; [|reflexivity].
  exfalso. apply H. apply find_Some in E as [E _]. eexists _, _. exact E.
Qed.

Lemma split_sep_first sep s pre rest :
  sep <> [] -> first_occurrence sep s pre rest ->
  split_sep sep s = pre :: split_sep sep rest.
Proof.
  intros Hsep H. rewrite split_sep_eq by exact Hsep.
  rewrite (find_first _ _ _ _ H). destruct H as [-> _].
  rewrite take_app_length.
  rewrite app_assoc, <- length_app, drop_app_length. reflexivity.
Qed.

End FindFacts.

(** ** Facts about the gender pattern *)

Module GenderFacts.
Import Py PyFacts.

Lemma gender_codes_eq :
  GENDER_CODES = [[1076; 1076]; [1084; 1084]; [1078; 1078]].
Proof. reflexivity. Qed.

Lemma gender_code_cases g :
  In g GENDER_CODES ->
  g = [1076; 1076] \/ g = [1084; 1084] \/ g = [1078; 1078].
Proof.
  rewrite gender_codes_eq. cbn [In]. intuition auto.
Qed.

Lemma gender_code_length g : In g GENDER_CODES -> length g = 2%nat.
Proof.
  intros H. destruct (gender_code_cases g H) as [->|[->| ->]]; reflexivity.
Qed.

(** A code is two characters, neither of them whitespace. *)
Lemma gender_code_chars g :
  In g GENDER_CODES ->
  exists c1 c2, g = [c1; c2] /\ isspace c1 = false /\ isspace c2 = false.
Proof.
  intros H. destruct (gender_code_cases g H) as [->|[->| ->]];
    eexists _, _; repeat split; reflexivity.
Qed.

(** The alternation finds the code the text starts with. *)
Lemma find_code g ws :
  In g GENDER_CODES -> forallb isspace ws = true ->
  List.find
    (fun g' => startswith g' (g ++ ws)
               && forallb isspace (drop (length g') (g ++ ws)))
    GENDER_CODES = Some g.
Proof.
  intros H Hws. rewrite gender_codes_eq.
  destruct (gender_code_cases g H) as [->|[->| ->]];
    cbn; rewrite drop_0, Hws; reflexivity.
Qed.

Lemma find_code_inv t g :
  List.find
    (fun g' => startswith g' t && forallb isspace (drop (length g') t))
    GENDER_CODES = Some g ->
  In g GENDER_CODES
  /\ exists ws, t = g ++ ws /\ forallb isspace ws = true.
Proof.
  intros H. apply find_some in H as [Hin H].
  apply andb_true_iff in H as [H1 H2].
  apply startswith_spec in H1 as [ws ->].
  rewrite drop_app_length in H2. eauto.
Qed.

Lemma gender_match_Some s g :
  gender_match s = Some g ->
  In g GENDER_CODES
  /\ exists w1 w2, s = w1 ++ g ++ w2 /\ w1 <> []
                   /\ forallb isspace w1 = true /\ forallb isspace w2 = true.
Proof.
  unfold gender_match. destruct s as [|c s]; [discriminate|].
  destruct (isspace c) eqn:Ec; [|discriminate].
  intros H. apply find_code_inv in H as (Hin & w2 & Ht & Hw2).
  split; [exact Hin|].
  destruct (lstrip_decomp (c :: s)) as (w1 & Hs & Hw1).
  exists w1, w2. rewrite Ht in Hs. repeat split; try assumption.
  intros ->. cbn [app] in Hs.
  destruct (gender_code_chars g Hin) as (c1 & c2 & -> & Hc1 & _).
  injection Hs as -> _. congruence.
Qed.

Lemma gender_match_suffix w1 g w2 :
  In g GENDER_CODES -> w1 <> [] ->
  forallb isspace w1 = true -> forallb isspace w2 = true ->
  gender_match (w1 ++ g ++ w2) = Some g.
Proof.
  intros Hin Hne Hw1 Hw2. unfold gender_match.
  destruct w1 as [|c w1]; [contradiction|]. cbn [app].
  pose proof Hw1 as Hw1'. cbn [forallb] in Hw1'.
  apply andb_true_iff in Hw1' as [Hc _]. rewrite Hc.
  change (c :: w1 ++ g ++ w2) with ((c :: w1) ++ g ++ w2).
  rewrite lstrip_spaces by exact Hw1.
  destruct (gender_code_chars g Hin) as (c1 & c2 & Hg & Hc1 & _).
  assert (lstrip (g ++ w2) = g ++ w2) as ->.
  { rewrite Hg. cbn [app lstrip]. rewrite Hc1. reflexivity. }
  apply find_code; assumption.
Qed.

(** Text that ends with a code has a character that is no whitespace. *)
Lemma code_not_spaces x g :
  In g GENDER_CODES -> forallb isspace (x ++ g) = false.
Proof.
  intros Hin. destruct (gender_code_chars g Hin) as (c1 & c2 & -> & Hc1 & _).
  rewrite forallb_app. cbn [forallb]. rewrite Hc1.
  cbn [andb]. apply andb_false_r.
Qed.

(** No match starts inside the name: a character of the name would have to
    be whitespace or belong to the code. *)
Lemma gender_match_inside c x ws g :
  In g GENDER_CODES -> ws <> [] -> forallb isspace ws = true ->
  forallb isspace (c :: x) = false ->
  gender_match (c :: x ++ ws ++ g) = None.
Proof.
  intros Hin Hne Hws Hx.
  destruct (gender_match (c :: x ++ ws ++ g)) as [g'|] eqn:E; [|reflexivity].
  exfalso. apply gender_match_Some in E as (Hin' & w1 & w2 & Hs & _ & Hw1 & Hw2).
  (* the text is w1 g' w2 and also (c :: x) ws g *)
  destruct (gender_code_chars g Hin) as (a1 & a2 & -> & Ha1 & Ha2).
  destruct (gender_code_chars g' Hin') as (b1 & b2 & -> & Hb1 & Hb2).
  (* trailing whitespace is empty, for the text ends with a2 *)
  assert (w2 = []) as ->.
  { assert (rstrip (c :: x ++ ws ++ [a1; a2]) = c :: x ++ ws ++ [a1; a2]) as Hfix.
    { replace (c :: x ++ ws ++ [a1; a2]) with ((c :: x ++ ws ++ [a1]) ++ [a2])
        by (cbn [app]; rewrite <- !app_assoc; reflexivity).
      apply rstrip_keep, Ha2. }
    eapply rstrip_fixed_tail; [exact Hfix | | exact Hw2].
    rewrite Hs. rewrite app_assoc. reflexivity. }
  rewrite app_nil_r in Hs.
  (* compare the two readings from the right *)
  assert (c :: x ++ ws ++ [a1; a2] = ((c :: x) ++ ws) ++ [a1; a2]) as Heq
    by (rewrite <- app_assoc; reflexivity).
  rewrite Heq in Hs.
  apply app_inj_2 in Hs as [Hl _]; [|reflexivity].
  assert (forallb isspace ((c :: x) ++ ws) = true) as Hall
    by (rewrite Hl; exact Hw1).
  rewrite forallb_app, Hx in Hall. discriminate.
Qed.

(** Where the search finds the suffix: at the start of the whitespace that
    precedes the code, so what it leaves is the name without its trailing
    whitespace. *)
Lemma gender_search_suffix name ws g :
  In g GENDER_CODES -> ws <> [] -> forallb isspace ws = true ->
  exists p, gender_search (name ++ ws ++ g) = Some (p, g)
            /\ (p <= length name)%nat
            /\ forallb isspace (drop p name) = true.
Proof.
  intros Hin Hne Hws. induction name as [|c name (p & IH & Hp & Hd)].
  - exists O. cbn [app].
    assert (gender_match (ws ++ g) = Some g) as Hm.
    { rewrite <- (app_nil_r g) at 1.
      apply gender_match_suffix; auto. }
    destruct (ws ++ g) eqn:E; cbn [gender_search]; rewrite Hm; auto.
  - destruct (forallb isspace (c :: name)) eqn:Hall.
    + exists O. cbn [app gender_search].
      assert (gender_match (c :: name ++ ws ++ g) = Some g) as ->.
      { change (c :: name ++ ws ++ g) with ((c :: name) ++ ws ++ g).
        rewrite app_assoc. rewrite <- (app_nil_r g) at 1.
        apply gender_match_suffix; [exact Hin | | | reflexivity].
        - cbn [app]. discriminate.
        - rewrite forallb_app, Hall, Hws. reflexivity. }
      cbn [drop]. repeat split; [cbn [length]; lia | exact Hall].
    + exists (S p). cbn [app gender_search].
      rewrite gender_match_inside by assumption.
      rewrite IH. cbn [length drop]. repeat split; [lia | exact Hd].
Qed.

Lemma gender_search_Some s p g :
  gender_search s = Some (p, g) ->
  In g GENDER_CODES
  /\ exists w1 w2, s = take p s ++ w1 ++ g ++ w2 /\ w1 <> []
                   /\ forallb isspace w1 = true /\ forallb isspace w2 = true.
Proof.
  revert p; induction s as [|c s IH]; intros p; cbn [gender_search].
  - cbn. discriminate.
  - destruct (gender_match (c :: s)) as [g'|] eqn:E.
    + intros [= <- <-]. apply gender_match_Some in E as (Hin & w1 & w2 & H).
      split; [exact Hin|]. exists w1, w2. exact H.
    + destruct (gender_search s) as [[a g']|] eqn:E'; [|discriminate].
      intros [= <- <-]. destruct (IH a eq_refl) as (Hin & w1 & w2 & Hs & H).
      split; [exact Hin|]. exists w1, w2. cbn [take app].
      rewrite <- Hs. auto.
Qed.

(** On trimmed text a match is a suffix in the sense of [gender_suffix]. *)
Lemma gender_search_trimmed b p g :
  rstrip b = b -> gender_search b = Some (p, g) ->
  gender_suffix b (take p b) g.
Proof.
  intros Hb H. apply gender_search_Some in H as (Hin & w1 & w2 & Hs & Hne & Hw1 & Hw2).
  split; [exact Hin|]. exists w1. repeat split; try assumption.
  assert (w2 = []) as ->.
  { eapply rstrip_fixed_tail; [exact Hb | | exact Hw2].
    rewrite Hs at 1.
    rewrite (app_assoc w1), (app_assoc (take p b)). reflexivity. }
  rewrite app_nil_r in Hs. exact Hs.
Qed.

Lemma gender_search_None b name g :
  gender_search b = None -> ~ gender_suffix b name g.
Proof.
  intros H (Hin & ws & Hne & Hws & ->).
  destruct (gender_search_suffix name ws g Hin Hne Hws) as (p & Hp & _).
  congruence.
Qed.

(** The gender and the name tokens, for text that ends with a code. *)
Lemma gender_of_suffix b name g :
  gender_suffix b name g ->
  gender_of b = g /\ split (name_text_of b) = split name.
Proof.
  intros (Hin & ws & Hne & Hws & ->).
  destruct (gender_search_suffix name ws g Hin Hne Hws) as (p & Hp & Hle & Hd).
  unfold gender_of, name_text_of. rewrite Hp. split; [reflexivity|].
  rewrite split_strip, take_app_le by exact Hle.
  rewrite <- (take_drop p name) at 2.
  rewrite split_app_spaces by exact Hd. reflexivity.
Qed.

End GenderFacts.

(** ** Facts about the line loop *)

Module ScanFacts.
Import Py PyFacts FindFacts.

Lemma lstrip_app_spaces x ws :
  forallb isspace ws = true -> lstrip x <> [] -> lstrip (x ++ ws) = lstrip x ++ ws.
Proof.
  intros Hws. induction x as [|c x IH]; cbn [app lstrip]; [contradiction|].
  destruct (isspace c); [exact IH | reflexivity].
Qed.

Lemma lstrip_all_spaces ws : forallb isspace ws = true -> lstrip ws = [].
Proof.
  intros H. rewrite <- (app_nil_r ws). rewrite lstrip_spaces by exact H.
  reflexivity.
Qed.

Lemma lstrip_nil_spaces x : lstrip x = [] -> forallb isspace x = true.
Proof.
  intros H. destruct (lstrip_decomp x) as (ws & Hx & Hws).
  rewrite H, app_nil_r in Hx. subst. exact Hws.
Qed.

Lemma strip_spaces_l ws s : forallb isspace ws = true -> strip (ws ++ s) = strip s.
Proof. intros H. unfold strip. rewrite lstrip_spaces by exact H. reflexivity. Qed.

Lemma strip_spaces_r s ws : forallb isspace ws = true -> strip (s ++ ws) = strip s.
Proof.
  intros H. unfold strip. destruct (lstrip s) as [|c t] eqn:E.
  - apply lstrip_nil_spaces in E.
    rewrite lstrip_all_spaces; [reflexivity|].
    rewrite forallb_app, E, H. reflexivity.
  - rewrite lstrip_app_spaces, E by (rewrite ?E; auto; discriminate).
    apply rstrip_spaces, H.
Qed.

Lemma strip_all_spaces ws : forallb isspace ws = true -> strip ws = [].
Proof. intros H. unfold strip. rewrite lstrip_all_spaces by exact H. reflexivity. Qed.

Lemma rstrip_app_keep x y : rstrip y <> [] -> rstrip (x ++ y) = x ++ rstrip y.
Proof.
  intros Hy. induction x as [|c x IH]; cbn [app rstrip]; [reflexivity|].
  rewrite IH. destruct (x ++ rstrip y) eqn:E; [|reflexivity].
  apply app_eq_nil in E as [_ E]. contradiction.
Qed.

(** Trimming a line keeps an occurrence of a literal whose first and last
    characters are no whitespace. *)
Lemma occurs_strip sub s c1 m m' c2 :
  sub = c1 :: m -> sub = m' ++ [c2] ->
  isspace c1 = false -> isspace c2 = false ->
  occurs sub s -> occurs sub (strip s).
Proof.
  intros H1 H2 Hc1 Hc2 (a & b & ->).
  assert (exists a', lstrip (a ++ sub ++ b) = a' ++ sub ++ b) as [a' Ha].
  { induction a as [|c a [a' IH]]; cbn [app lstrip].
    - exists []. rewrite H1. cbn [app lstrip]. rewrite Hc1. reflexivity.
    - destruct (isspace c); [exists a'; exact IH | exists (c :: a); reflexivity]. }
  unfold strip. rewrite Ha. exists a', (rstrip b).
  rewrite H2, <- !app_assoc, !(app_assoc a' m').
  assert (rstrip ([c2] ++ b) = [c2] ++ rstrip b) as Hr.
  { cbn [app rstrip]. destruct (rstrip b); [rewrite Hc2|]; reflexivity. }
  rewrite rstrip_app_keep; rewrite Hr; [reflexivity | discriminate].
Qed.

Lemma terminators_eq :
  TERMINATORS = [u"alexalex1804"; u"##"; u"VGD.ru"].
Proof. reflexivity. Qed.

(** The test of the loop is containment of one of the three literals. *)
Lemma is_terminator_occurs l :
  is_terminator l = true <-> exists term, In term TERMINATORS /\ occurs term l.
Proof.
  unfold is_terminator. rewrite !orb_true_iff, !contains_occurs.
  rewrite terminators_eq. cbn [In]. split.
  - intros [[H|H]|H]; eauto 6.
  - intros (term & [<-|[<-|[<-|[]]]] & H); auto.
Qed.

Lemma terminator_strip term l :
  In term TERMINATORS -> occurs term l -> is_terminator (strip l) = true.
Proof.
  intros Hin H. apply is_terminator_occurs. exists term. split; [exact Hin|].
  rewrite terminators_eq in Hin.
  destruct Hin as [<-|[<-|[<-|[]]]].
  - eapply (occurs_strip _ _ 97 _ (u"alexalex180") 52); try reflexivity. exact H.
  - eapply (occurs_strip _ _ 35 _ (u"#") 35); try reflexivity. exact H.
  - eapply (occurs_strip _ _ 86 _ (u"VGD.r") 117); try reflexivity. exact H.
Qed.

Lemma occurs_nonempty term l : In term TERMINATORS -> occurs term l -> l <> [].
Proof.
  intros Hin (a & b & ->) E. apply app_eq_nil in E as [_ E].
  apply app_eq_nil in E as [E _]. subst.
  rewrite terminators_eq in Hin.
  destruct Hin as [H|[H|[H|[]]]]; apply (f_equal length) in H;
    vm_compute in H; discriminate.
Qed.

Lemma scan_lines_acc lines records :
  scan_lines lines records = records ++ scan_lines lines [].
Proof.
  revert records; induction lines as [|l lines IH]; intros records;
    cbn [scan_lines].
  - rewrite app_nil_r. reflexivity.
  - destruct (strip l) as [|c t]; [apply IH|].
    destruct (is_terminator (c :: t)); [rewrite app_nil_r; reflexivity|].
    rewrite IH, (IH ([] ++ _)), app_assoc. reflexivity.
Qed.

(** The loop tokenizes the trimmed, non-empty lines before the first
    terminator. *)
Lemma scan_lines_spec lines :
  scan_lines lines [] =
  List.map parse_line (until_terminator (trimmed_lines lines)).
Proof.
  unfold trimmed_lines.
  induction lines as [|l lines IH]; cbn [scan_lines List.map List.filter];
    [reflexivity|].
  destruct (strip l) as [|c t]; cbn [nonempty]; [exact IH|].
  cbn [until_terminator]. destruct (is_terminator (c :: t)); [reflexivity|].
  rewrite scan_lines_acc, IH. reflexivity.
Qed.

Lemma until_terminator_stop l1 t l2 :
  is_terminator t = true ->
  until_terminator (l1 ++ t :: l2) = until_terminator l1.
Proof.
  intros Ht. induction l1 as [|l l1 IH]; cbn [app until_terminator].
  - rewrite Ht. reflexivity.
  - destruct (is_terminator l); [reflexivity | rewrite IH; reflexivity].
Qed.

Lemma until_terminator_clean l1 :
  Forall (fun l => is_terminator l = false) l1 -> until_terminator l1 = l1.
Proof.
  induction 1 as [|l l1 Hl _ IH]; cbn [until_terminator]; [reflexivity|].
  rewrite Hl, IH. reflexivity.
Qed.

Lemma trimmed_lines_app l1 l2 :
  trimmed_lines (l1 ++ l2) = trimmed_lines l1 ++ trimmed_lines l2.
Proof. unfold trimmed_lines. rewrite List.map_app, List.filter_app. reflexivity. Qed.

End ScanFacts.

(** ** Trimming a block changes none of its trimmed lines *)

Module LinesFacts.
Import Py PyFacts ScanFacts.

Lemma linebreak_space c : islinebreak c = true -> isspace c = true.
Proof.
  unfold islinebreak, isspace. rewrite !orb_true_iff, !andb_true_iff.
  rewrite !N.leb_le, !N.eqb_eq. intros H.
  assert (9 <= c <= 13 \/ 28 <= c <= 32 \/ c = 133 \/ c = 8232 \/ c = 8233)
    as Hc by lia.
  clear H. destruct Hc as [H|[H|[H|[H|H]]]]; auto 20.
Qed.

(** The line being read is a prefix of the first line that comes out. *)
Lemma splitlines_from_cur cur s :
  splitlines_from cur s =
  match splitlines_from [] s with
  | [] => emit cur
  | l :: ls => (cur ++ l) :: ls
  end.
Proof.
  revert cur; induction s as [|c s IH]; intros cur; cbn [splitlines_from].
  - cbn [emit]. reflexivity.
  - destruct (islinebreak c).
    + destruct ((c =? 13) && starts_with_lf s).
      * apply IH.
      * rewrite app_nil_r. reflexivity.
    + rewrite IH, (IH ([] ++ [c])). cbn [app].
      destruct (splitlines_from [] s) as [|l ls]; cbn [emit].
      * destruct cur; reflexivity.
      * rewrite <- app_assoc. reflexivity.
Qed.

Lemma trimmed_cons_spaces w ls :
  forallb isspace w = true -> trimmed_lines (w :: ls) = trimmed_lines ls.
Proof.
  intros H. unfold trimmed_lines. cbn [List.map List.filter].
  rewrite strip_all_spaces by exact H. reflexivity.
Qed.

Lemma trimmed_emit_spaces w :
  forallb isspace w = true -> trimmed_lines (emit w) = [].
Proof.
  intros H. destruct w; [reflexivity|]. cbn [emit].
  apply trimmed_cons_spaces. exact H.
Qed.

Lemma trimmed_head_l w l ls :
  forallb isspace w = true ->
  trimmed_lines ((w ++ l) :: ls) = trimmed_lines (l :: ls).
Proof.
  intros H. unfold trimmed_lines. cbn [List.map List.filter].
  rewrite strip_spaces_l by exact H. reflexivity.
Qed.

Lemma trimmed_head_r l w ls :
  forallb isspace w = true ->
  trimmed_lines ((l ++ w) :: ls) = trimmed_lines (l :: ls).
Proof.
  intros H. unfold trimmed_lines. cbn [List.map List.filter].
  rewrite strip_spaces_r by exact H. reflexivity.
Qed.

(** Whitespace before the text adds no line. *)
Lemma trimmed_splitlines_l ws s :
  forallb isspace ws = true ->
  trimmed_lines (splitlines (ws ++ s)) = trimmed_lines (splitlines s).
Proof.
  unfold splitlines.
  induction ws as [|c ws IH]; cbn [forallb app]; [reflexivity|].
  intros H. apply andb_true_iff in H as [Hc Hws]. specialize (IH Hws).
  cbn [splitlines_from]. destruct (islinebreak c).
  - destruct ((c =? 13) && starts_with_lf (ws ++ s)); [exact IH|].
    rewrite trimmed_cons_spaces by reflexivity. exact IH.
  - cbn [app]. rewrite splitlines_from_cur.
    destruct (splitlines_from [] (ws ++ s)) as [|l ls].
    + rewrite <- IH. apply trimmed_emit_spaces. cbn [forallb]. rewrite Hc. reflexivity.
    + rewrite <- IH. apply (trimmed_head_l [c]). cbn [forallb]. rewrite Hc. reflexivity.
Qed.

(** Whitespace alone makes no line. *)
Lemma trimmed_splitlines_spaces cur ws :
  forallb isspace ws = true ->
  trimmed_lines (splitlines_from cur ws) = trimmed_lines (emit cur).
Proof.
  revert cur; induction ws as [|c ws IH]; intros cur; cbn [forallb splitlines_from];
    [reflexivity|].
  intros H. apply andb_true_iff in H as [Hc Hws].
  destruct (islinebreak c).
  - destruct ((c =? 13) && starts_with_lf ws); [exact (IH cur Hws)|].
    change (cur :: splitlines_from [] ws) with ([cur] ++ splitlines_from [] ws).
    rewrite trimmed_lines_app, (IH [] Hws). cbn [emit].
    rewrite app_nil_r. destruct cur; reflexivity.
  - rewrite (IH _ Hws).
    assert (cur ++ [c] <> []) as Hne by (destruct cur; discriminate).
    destruct (cur ++ [c]) as [|a t] eqn:E; [contradiction|]. cbn [emit].
    rewrite <- E. rewrite (trimmed_head_r cur [c]) by (cbn [forallb]; rewrite Hc; reflexivity).
    destruct cur; [reflexivity|]. reflexivity.
Qed.

Lemma starts_with_lf_app s ws :
  s <> [] -> starts_with_lf (s ++ ws) = starts_with_lf s.
Proof. destruct s; [contradiction | reflexivity]. Qed.

(** Whitespace after the text adds no line. *)
Lemma trimmed_splitlines_r cur s ws :
  forallb isspace ws = true ->
  trimmed_lines (splitlines_from cur (s ++ ws))
  = trimmed_lines (splitlines_from cur s).
Proof.
  intros Hws. revert cur; induction s as [|c s IH]; intros cur.
  - cbn [app splitlines_from]. apply trimmed_splitlines_spaces, Hws.
  - cbn [app splitlines_from]. destruct (islinebreak c) eqn:Eb; [|apply IH].
    destruct s as [|c' s].
    + (* the text ends with this line break *)
      cbn [app starts_with_lf]. rewrite andb_false_r. cbn [splitlines_from emit].
      assert (trimmed_lines (cur :: splitlines_from [] ws) = trimmed_lines [cur]) as Hcut.
      { change (cur :: splitlines_from [] ws) with ([cur] ++ splitlines_from [] ws).
        rewrite trimmed_lines_app, trimmed_splitlines_spaces by exact Hws.
        cbn [emit]. apply app_nil_r. }
      destruct ((c =? 13) && starts_with_lf ws) eqn:E; [|exact Hcut].
      apply andb_true_iff in E as [_ E].
      destruct ws as [|w ws]; [discriminate|]. cbn [starts_with_lf] in E.
      apply N.eqb_eq in E as ->.
      cbn [forallb] in Hws. apply andb_true_iff in Hws as [_ Hws].
      change (splitlines_from cur (10 :: ws)) with ([cur] ++ splitlines_from [] ws).
      rewrite trimmed_lines_app, trimmed_splitlines_spaces by exact Hws.
      cbn [emit]. apply app_nil_r.
    + rewrite (starts_with_lf_app (c' :: s)) by discriminate.
      destruct ((c =? 13) && starts_with_lf (c' :: s)); [apply IH|].
      change (cur :: ?x) with ([cur] ++ x).
      rewrite !trimmed_lines_app. f_equal. apply IH.
Qed.

Lemma trimmed_splitlines_strip part :
  trimmed_lines (splitlines (strip part)) = trimmed_lines (splitlines part).
Proof.
  destruct (strip_decomp part) as (w1 & w2 & Hs & H1 & H2).
  rewrite Hs at 2. rewrite trimmed_splitlines_l by exact H1.
  unfold splitlines. rewrite trimmed_splitlines_r by exact H2. reflexivity.
Qed.

End LinesFacts.

(** ** The tokenizer: [parse_line] *)

Lemma parse_line_raw line r : parse_line line = Some r -> r !! "raw" = Some line.
Proof.
  destruct (date_search line) as [[i j]|] eqn:E.
  - rewrite (parse_line_date _ _ _ E). intros [= <-]. apply dict_full_lookup.
  - rewrite (parse_line_no_date _ E).
    destruct (length line <? 3)%nat; [discriminate|].
    intros [= <-]. apply dict_degraded_lookup.
Qed.

Lemma parse_line_nonempty line r : parse_line line = Some r -> r <> ∅.
Proof.
  intros H Hr. apply parse_line_raw in H. rewrite Hr in H. discriminate.
Qed.

Lemma truthy_parse_line line : truthy (parse_line line) = parse_line line.
Proof.
  destruct (parse_line line) as [r|] eqn:E; [|reflexivity].
  cbn [truthy]. destruct (decide (r = ∅)) as [Hr|]; [|reflexivity].
  destruct (parse_line_nonempty _ _ E Hr).
Qed.

(** X1: the [date_birth] of a record is empty or two digits, a dot, two
    digits, a dot and a year of two, three or four digits. *)
Lemma date_birth_shape line r :
  parse_line line = Some r ->
  exists d, r !! "date_birth" = Some d
            /\ (d = [] \/ date_shape 2 d = true \/ date_shape 3 d = true
                \/ date_shape 4 d = true).
Proof.
  destruct (date_search line) as [[i j]|] eqn:E.
  - rewrite (parse_line_date _ _ _ E). intros [= <-].
    eexists. split; [apply dict_full_lookup|]. right.
    destruct (date_search_Some _ _ _ E) as (Hij & Hj & Hm & _).
    apply date_match_Some in Hm as (Hn & _ & Hs & _).
    rewrite take_drop_commute in Hs.
    replace (i + (j - i))%nat with j in Hs by lia.
    assert (j - i - 6 = 2 \/ j - i - 6 = 3 \/ j - i - 6 = 4)%nat
      as [Hk|[Hk|Hk]] by lia; rewrite Hk in Hs; auto.
  - rewrite (parse_line_no_date _ E).
    destruct (length line <? 3)%nat; [discriminate|].
    intros [= <-]. eexists. split; [apply dict_degraded_lookup|]. auto.
Qed.

(** The record of a line in which the date is found at [i]: its date is the
    matched text and no date starts before it. *)
Lemma parse_line_first_match line :
  has_date line ->
  exists r i j,
    parse_line line = Some r /\ r !! "raw" = Some line
    /\ r !! "date_birth" = Some (drop i (take j line))
    /\ (i + 8 <= j <= i + 10)%nat /\ (j <= length line)%nat
    /\ valid_date (take 8 (drop i line)) = true
    /\ forall pre d post,
         line = pre ++ d ++ post -> valid_date d = true ->
         (i <= length pre)%nat.
Proof.
  intros H. destruct (date_search line) as [[i j]|] eqn:E.
  - destruct (date_search_Some _ _ _ E) as (Hij & Hj & Hm & Hmin).
    pose proof (date_match_Some _ _ Hm) as (Hn & _).
    pose proof (date_match_prefix _ _ Hm) as (Hv & _).
    eexists _, i, j. rewrite (parse_line_date _ _ _ E).
    split; [reflexivity|]. split; [apply dict_full_lookup|].
    split; [apply dict_full_lookup|]. split; [lia|].
    split; [exact Hj|]. split; [exact Hv|].
    intros pre d post -> Hd.
    destruct (Nat.le_gt_cases i (length pre)) as [|Hlt]; [assumption|].
    specialize (Hmin _ Hlt). rewrite drop_app_length in Hmin.
    destruct (date_match_valid d post Hd) as [n Hn']. congruence.
  - apply date_search_None_iff in E. contradiction.
Qed.

Lemma date_search_has_date s i j : date_search s = Some (i, j) -> has_date s.
Proof.
  intros E. destruct (date_search_Some _ _ _ E) as (_ & _ & Hm & _).
  apply date_match_prefix in Hm as [Hv _].
  exists (take i s), (take 8 (drop i s)), (drop 8 (drop i s)).
  split; [|exact Hv].
  rewrite (take_drop 8), (take_drop i). reflexivity.
Qed.

Lemma names_are_dict toks e f g h :
  names_are toks
    (dict [("last_name", Py.item_or_empty toks 0);
           ("first_name", Py.item_or_empty toks 1);
           ("patronymic", Py.item_or_empty toks 2);
           ("extra", Py.join (u" ") (drop 3 toks));
           ("gender", e); ("date_birth", f); ("place", g); ("raw", h)]).
Proof. unfold names_are. repeat split; reflexivity. Qed.

Lemma item_or_empty_missing (toks : list str) k :
  (length toks <= k)%nat -> Py.item_or_empty toks k = [].
Proof.
  intros H. unfold Py.item_or_empty.
  rewrite (lookup_ge_None_2 toks k) by exact H. reflexivity.
Qed.

(** What [parse_line] takes for the name text, on trimmed text: the whole
    of it when no code ends it, and else the part before the code. *)
Lemma name_text_cases b :
  Py.rstrip b = b ->
  (gender_search b = None /\ forall name code, ~ gender_suffix b name code)
  \/ (exists p code, gender_search b = Some (p, code)
                     /\ gender_suffix b (take p b) code).
Proof.
  intros Hb. destruct (gender_search b) as [[p code]|] eqn:E.
  - right. exists p, code. split; [reflexivity|].
    apply GenderFacts.gender_search_trimmed; assumption.
  - left. split; [reflexivity|]. intros name code.
    apply GenderFacts.gender_search_None. exact E.
Qed.

(** The record of a line in which the search finds the date at [i]. *)
Lemma parse_line_date_fields line i j :
  date_search line = Some (i, j) ->
  let b := Py.strip (take i line) in
  exists r, parse_line line = Some r
    /\ r !! "raw" = Some line
    /\ r !! "date_birth" = Some (drop i (take j line))
    /\ r !! "place" = Some (Py.strip (drop j line))
    /\ r !! "gender" = Some (gender_of b)
    /\ names_are (Py.split (name_text_of b)) r.
Proof.
  intros H. cbv zeta. rewrite (parse_line_date _ _ _ H).
  eexists. split; [reflexivity|].
  repeat (split; [apply dict_full_lookup|]). apply names_are_dict.
Qed.

(** ** The claims about [parse_line] *)

(** C7: [parse_line] gives no record exactly for the lines that contain no
    date substring and are shorter than three characters; every other line
    gives one record, and the function is total. *)
Theorem parse_line_none_iff (line : str) :
  (parse_line line = None <-> ~ has_date line /\ (length line < 3)%nat)
  /\ (~ (~ has_date line /\ (length line < 3)%nat)
      <-> exists r, parse_line line = Some r)
  /\ (forall r r', parse_line line = Some r -> parse_line line = Some r' -> r = r').
Proof.
  assert (parse_line line = None <-> ~ has_date line /\ (length line < 3)%nat) as H1.
  { destruct (date_search line) as [[i j]|] eqn:E.
    - rewrite (parse_line_date _ _ _ E). split; [discriminate|].
      intros [Hd _]. destruct Hd. eapply date_search_has_date, E.
    - rewrite (parse_line_no_date _ E).
      apply date_search_None_iff in E.
      destruct (length line <? 3)%nat eqn:El.
      + apply Nat.ltb_lt in El. tauto.
      + apply Nat.ltb_ge in El. split; [discriminate|]. intros [_ H]. lia. }
  split; [exact H1|]. split.
  - destruct (parse_line line) as [r|] eqn:E.
    + split; [eauto|]. intros _ H. apply H1 in H. discriminate.
    + split.
      * intros H. destruct H. apply H1. reflexivity.
      * intros [r Hr]. discriminate.
  - intros r r' H H'. congruence.
Qed.

(** C8: tokenizing the [raw] field of a record again gives the same
    record. *)
Theorem parse_line_raw_again (line : str) (r : record) :
  parse_line line = Some r ->
  exists raw, r !! "raw" = Some raw /\ parse_line raw = Some r.
Proof.
  intros H. exists line. split; [|exact H]. apply parse_line_raw, H.
Qed.

Lemma parse_line_raw_again_witness :
  let line := u"Сидорова Анна дд 01.01.05" in
  exists r, parse_line line = Some r
            /\ exists raw, r !! "raw" = Some raw /\ parse_line raw = Some r.
Proof.
  cbv zeta.
  assert (date_search (u"Сидорова Анна дд 01.01.05") = Some (17, 25)%nat) as Hs
    by (vm_compute; reflexivity).
  destruct (parse_line_date_fields _ _ _ Hs) as (r & Hp & _).
  exists r. split; [exact Hp|]. exact (parse_line_raw_again _ r Hp).
Defined.

(** C1: for a line with no date and at least three characters the
    dictionary returned has [raw] set to the line and [last_name],
    [first_name], [patronymic], [date_birth] and [place] empty; it has no
    [extra] and no [gender] key, unlike the dictionary of the other
    branch. *)
Theorem parse_line_degraded (line : str) :
  ~ has_date line -> (3 <= length line)%nat ->
  exists r, parse_line line = Some r
    /\ r !! "raw" = Some line
    /\ r !! "last_name" = Some [] /\ r !! "first_name" = Some []
    /\ r !! "patronymic" = Some [] /\ r !! "date_birth" = Some []
    /\ r !! "place" = Some []
    /\ r !! "extra" = None /\ r !! "gender" = None.
Proof.
  intros Hd Hl. apply date_search_None_iff in Hd.
  rewrite (parse_line_no_date _ Hd).
  destruct (length line <? 3)%nat eqn:El; [apply Nat.ltb_lt in El; lia|].
  eexists. split; [reflexivity|]. apply dict_degraded_lookup.
Qed.

Lemma parse_line_degraded_witness :
  let line := u"Список жителей" in
  ~ has_date line /\ (3 <= length line)%nat
  /\ exists r, parse_line line = Some r
    /\ r !! "raw" = Some line
    /\ r !! "last_name" = Some [] /\ r !! "first_name" = Some []
    /\ r !! "patronymic" = Some [] /\ r !! "date_birth" = Some []
    /\ r !! "place" = Some []
    /\ r !! "extra" = None /\ r !! "gender" = None.
Proof.
  cbv zeta.
  assert (~ has_date (u"Список жителей")) as Hd
    by (apply date_search_None_iff; vm_compute; reflexivity).
  assert (3 <= length (u"Список жителей"))%nat as Hl by (vm_compute; lia).
  split; [exact Hd|]. split; [exact Hl|].
  exact (parse_line_degraded _ Hd Hl).
Defined.

(** C3: on a line whose date is followed by one more digit the
    [date_birth] field is the nine characters the pattern takes, which is
    no date in the form dd.mm.yy or dd.mm.yyyy and so none of the date
    substrings of the line; [raw] is the line. *)
Theorem date_birth_not_a_date_substring :
  let line := u"Петров Иван 12.03.192 Покровка" in
  has_date line
  /\ exists r, parse_line line = Some r
     /\ r !! "raw" = Some line
     /\ r !! "date_birth" = Some (u"12.03.192")
     /\ valid_date (u"12.03.192") = false
     /\ forall pre d post,
          line = pre ++ d ++ post -> valid_date d = true ->
          r !! "date_birth" <> Some d.
Proof.
  cbv zeta.
  assert (date_search (u"Петров Иван 12.03.192 Покровка") = Some (12, 21)%nat)
    as Hs by (vm_compute; reflexivity).
  split; [exact (date_search_has_date _ _ _ Hs)|].
  destruct (parse_line_date_fields _ _ _ Hs) as (r & Hp & Hraw & Hdb & _).
  assert (drop 12 (take 21 (u"Петров Иван 12.03.192 Покровка")) = u"12.03.192")
    as Hd by (vm_compute; reflexivity).
  rewrite Hd in Hdb.
  exists r. split; [exact Hp|]. split; [exact Hraw|]. split; [exact Hdb|].
  split; [vm_compute; reflexivity|].
  intros pre d post _ Hv H. rewrite Hdb in H. injection H as <-.
  vm_compute in Hv. discriminate Hv.
Qed.

(** C4: the year of [date_birth] can have three digits: the field is then
    neither empty nor a date with a year of two or of four digits. *)
Theorem date_birth_three_digit_year :
  let line := u"Иванов Пётр Сергеевич мм 12.03.192 с. Покровка" in
  exists r d, parse_line line = Some r
    /\ r !! "date_birth" = Some d
    /\ d = u"12.03.192" /\ d <> []
    /\ valid_date d = false /\ date_shape 3 d = true.
Proof.
  cbv zeta.
  assert (date_search (u"Иванов Пётр Сергеевич мм 12.03.192 с. Покровка")
          = Some (25, 34)%nat) as Hs by (vm_compute; reflexivity).
  destruct (parse_line_date_fields _ _ _ Hs) as (r & Hp & _ & Hdb & _).
  exists r, (u"12.03.192"). split; [exact Hp|].
  split; [refine (eq_trans Hdb _); f_equal; vm_compute; reflexivity|].
  split; [reflexivity|]. split; [vm_compute; discriminate|].
  split; vm_compute; reflexivity.
Qed.

(** C5: when a date is found, the name fields are the whitespace-separated
    tokens of the text before the date without its gender code, by position:
    token 0 is [last_name], token 1 is [first_name], token 2 is
    [patronymic], and the tokens after them, joined with single spaces, are
    [extra]; a position with no token gives the empty string. *)
Theorem names_by_position (line : str) (i j : nat) :
  date_search line = Some (i, j) ->
  let b := Py.strip (take i line) in
  exists r g name,
    parse_line line = Some r /\ r !! "gender" = Some g
    /\ ((g = [] /\ name = b) \/ gender_suffix b name g)
    /\ let toks := Py.split name in
       (forall t, toks !! 0%nat = Some t -> r !! "last_name" = Some t)
       /\ (forall t, toks !! 1%nat = Some t -> r !! "first_name" = Some t)
       /\ (forall t, toks !! 2%nat = Some t -> r !! "patronymic" = Some t)
       /\ ((length toks <= 0)%nat -> r !! "last_name" = Some [])
       /\ ((length toks <= 1)%nat -> r !! "first_name" = Some [])
       /\ ((length toks <= 2)%nat -> r !! "patronymic" = Some [])
       /\ r !! "extra" = Some (Py.join (u" ") (drop 3 toks))
       /\ ((length toks <= 3)%nat -> r !! "extra" = Some []).
Proof.
  intros H b.
  destruct (parse_line_date_fields _ _ _ H) as (r & Hp & _ & _ & _ & Hg & Hn).
  fold b in Hg, Hn.
  assert (exists name,
             ((gender_of b = [] /\ name = b) \/ gender_suffix b name (gender_of b))
             /\ Py.split (name_text_of b) = Py.split name) as (name & Hcase & Hsplit).
  { destruct (name_text_cases b (PyFacts.rstrip_strip _)) as [[E _]|(p & code & E & Hsuf)].
    - exists b. unfold gender_of, name_text_of. rewrite E. auto.
    - exists (take p b). pose proof (GenderFacts.gender_of_suffix _ _ _ Hsuf) as [Hg' Hs'].
      rewrite Hg'. auto. }
  rewrite Hsplit in Hn.
  exists r, (gender_of b), name. split; [exact Hp|]. split; [exact Hg|].
  split; [exact Hcase|]. cbv zeta.
  destruct Hn as (H0 & H1 & H2 & He).
  assert (forall k t, Py.split name !! k = Some t ->
                      Py.item_or_empty (Py.split name) k = t) as Hhit.
  { intros k t Ht. unfold Py.item_or_empty.
    destruct (Py.split name !! k) as [t'|]; [|discriminate Ht].
    injection Ht as ->. reflexivity. }
  split; [intros t Ht; refine (eq_trans H0 _); f_equal; apply Hhit, Ht|].
  split; [intros t Ht; refine (eq_trans H1 _); f_equal; apply Hhit, Ht|].
  split; [intros t Ht; refine (eq_trans H2 _); f_equal; apply Hhit, Ht|].
  split; [intros Hl; refine (eq_trans H0 _); f_equal;
          apply item_or_empty_missing, Hl|].
  split; [intros Hl; refine (eq_trans H1 _); f_equal;
          apply item_or_empty_missing, Hl|].
  split; [intros Hl; refine (eq_trans H2 _); f_equal;
          apply item_or_empty_missing, Hl|].
  split; [exact He|].
  intros Hl. rewrite drop_ge in He by exact Hl. exact He.
Qed.

Lemma names_by_position_witness :
  let line := u"Сидорова Анна дд 01.01.05" in
  date_search line = Some (17, 25)%nat
  /\ let b := Py.strip (take 17 line) in
     exists r g name,
       parse_line line = Some r /\ r !! "gender" = Some g
       /\ ((g = [] /\ name = b) \/ gender_suffix b name g)
       /\ let toks := Py.split name in
          (forall t, toks !! 0%nat = Some t -> r !! "last_name" = Some t)
          /\ (forall t, toks !! 1%nat = Some t -> r !! "first_name" = Some t)
          /\ (forall t, toks !! 2%nat = Some t -> r !! "patronymic" = Some t)
          /\ ((length toks <= 0)%nat -> r !! "last_name" = Some [])
          /\ ((length toks <= 1)%nat -> r !! "first_name" = Some [])
          /\ ((length toks <= 2)%nat -> r !! "patronymic" = Some [])
          /\ r !! "extra" = Some (Py.join (u" ") (drop 3 toks))
          /\ ((length toks <= 3)%nat -> r !! "extra" = Some []).
Proof.
  cbv zeta.
  assert (date_search (u"Сидорова Анна дд 01.01.05") = Some (17, 25)%nat) as Hs
    by (vm_compute; reflexivity).
  split; [exact Hs|]. exact (names_by_position _ _ _ Hs).
Defined.

(** C6, as amended: when a date is found and the trimmed text before it ends
    with one of the three two-letter codes after whitespace, the code is the
    gender and the name fields come from the text before that whitespace;
    otherwise the gender is empty and the name fields come from the whole
    trimmed text.  The gender is one of the three codes or empty. *)
Theorem gender_extraction (line : str) (i j : nat) :
  date_search line = Some (i, j) ->
  let b := Py.strip (take i line) in
  exists r g,
    parse_line line = Some r /\ r !! "gender" = Some g
    /\ (forall name code,
          gender_suffix b name code ->
          g = code /\ names_are (Py.split name) r)
    /\ ((forall name code, ~ gender_suffix b name code) ->
        g = [] /\ names_are (Py.split b) r)
    /\ (g = [] \/ In g GENDER_CODES)
    /\ (forall code, In code GENDER_CODES -> length code = 2%nat).
Proof.
  intros H b.
  destruct (parse_line_date_fields _ _ _ H) as (r & Hp & _ & _ & _ & Hg & Hn).
  fold b in Hg, Hn.
  exists r, (gender_of b). split; [exact Hp|]. split; [exact Hg|].
  split; [|split; [|split]].
  - intros name code Hsuf.
    destruct (GenderFacts.gender_of_suffix _ _ _ Hsuf) as [Hg' Hs'].
    rewrite <- Hs'. auto.
  - intros Hno.
    destruct (name_text_cases b (PyFacts.rstrip_strip _)) as [[E _]|(p & code & _ & Hsuf)].
    + unfold gender_of, name_text_of in *. rewrite E in *. auto.
    + destruct (Hno _ _ Hsuf).
  - unfold gender_of. destruct (gender_search b) as [[p code]|] eqn:E; [|auto].
    right. apply GenderFacts.gender_search_Some in E as [Hin _]. exact Hin.
  - apply GenderFacts.gender_code_length.
Qed.

Lemma gender_extraction_witness :
  let line := u"Иванов Пётр Сергеевич мм 12.03.1920 с. Покровка" in
  date_search line = Some (25, 35)%nat
  /\ let b := Py.strip (take 25 line) in
     exists r g,
       parse_line line = Some r /\ r !! "gender" = Some g
       /\ (forall name code,
             gender_suffix b name code ->
             g = code /\ names_are (Py.split name) r)
       /\ ((forall name code, ~ gender_suffix b name code) ->
           g = [] /\ names_are (Py.split b) r)
       /\ (g = [] \/ In g GENDER_CODES)
       /\ (forall code, In code GENDER_CODES -> length code = 2%nat).
Proof.
  cbv zeta.
  assert (date_search (u"Иванов Пётр Сергеевич мм 12.03.1920 с. Покровка")
          = Some (25, 35)%nat) as Hs by (vm_compute; reflexivity).
  split; [exact Hs|]. exact (gender_extraction _ _ _ Hs).
Defined.

(** C6 as the specification states it fails twice: the codes have two
    letters, not three, and a code that only whitespace precedes in the text
    before the date is not extracted. *)
Lemma gender_claim_counterexample :
  (exists r g, parse_line (u"Сидорова Анна дд 01.01.05") = Some r
               /\ r !! "gender" = Some g /\ g <> [] /\ length g <> 3%nat)
  /\ (let line := u" дд 01.01.05" in
      exists r, date_search line = Some (4, 12)%nat
                /\ take 4 line = u" " ++ u"дд" ++ u" "
                /\ parse_line line = Some r
                /\ r !! "gender" = Some []
                /\ r !! "last_name" = Some (u"дд")).
Proof.
  split.
  - assert (date_search (u"Сидорова Анна дд 01.01.05") = Some (17, 25)%nat) as Hs
      by (vm_compute; reflexivity).
    destruct (parse_line_date_fields _ _ _ Hs) as (r & Hp & _ & _ & _ & Hg & _).
    exists r, (u"дд"). split; [exact Hp|].
    split; [refine (eq_trans Hg _); f_equal; vm_compute; reflexivity|].
    split; [vm_compute; discriminate | vm_compute; lia].
  - cbv zeta.
    assert (date_search (u" дд 01.01.05") = Some (4, 12)%nat) as Hs
      by (vm_compute; reflexivity).
    destruct (parse_line_date_fields _ _ _ Hs) as (r & Hp & _ & _ & _ & Hg & Hn & _).
    exists r. split; [exact Hs|]. split; [vm_compute; reflexivity|].
    split; [exact Hp|].
    split; [refine (eq_trans Hg _); f_equal; vm_compute; reflexivity|].
    refine (eq_trans Hn _); f_equal; vm_compute; reflexivity.
Qed.

(** C10: when the text before the date is a gender code alone, the code is
    not taken as the gender: the gender is empty and the code is the last
    name. *)
Theorem lone_code_is_last_name (line : str) (i j : nat) (code : str) :
  date_search line = Some (i, j) ->
  In code GENDER_CODES ->
  Py.strip (take i line) = code ->
  exists r, parse_line line = Some r
    /\ r !! "gender" = Some [] /\ r !! "last_name" = Some code
    /\ r !! "first_name" = Some [] /\ r !! "patronymic" = Some []
    /\ r !! "extra" = Some [].
Proof.
  intros H Hin Hb.
  destruct (parse_line_date_fields _ _ _ H) as (r & Hp & _ & _ & _ & Hg & Hn).
  rewrite Hb in Hg, Hn. exists r. split; [exact Hp|].
  destruct Hn as (H0 & H1 & H2 & H3).
  destruct (GenderFacts.gender_code_cases _ Hin) as [->|[->| ->]];
    repeat split;
    first [ refine (eq_trans Hg _) | refine (eq_trans H0 _)
          | refine (eq_trans H1 _) | refine (eq_trans H2 _)
          | refine (eq_trans H3 _) ];
    vm_compute; reflexivity.
Qed.

Lemma lone_code_is_last_name_witness :
  let line := u"мм 12.03.1920 с. Покровка" in
  date_search line = Some (3, 13)%nat
  /\ In (u"мм") GENDER_CODES
  /\ Py.strip (take 3 line) = u"мм"
  /\ exists r, parse_line line = Some r
       /\ r !! "gender" = Some [] /\ r !! "last_name" = Some (u"мм")
       /\ r !! "first_name" = Some [] /\ r !! "patronymic" = Some []
       /\ r !! "extra" = Some [].
Proof.
  cbv zeta.
  assert (date_search (u"мм 12.03.1920 с. Покровка") = Some (3, 13)%nat) as Hs
    by (vm_compute; reflexivity).
  assert (In (u"мм") GENDER_CODES) as Hin by (vm_compute; auto).
  assert (Py.strip (take 3 (u"мм 12.03.1920 с. Покровка")) = u"мм") as Hb
    by (vm_compute; reflexivity).
  split; [exact Hs|]. split; [exact Hin|]. split; [exact Hb|].
  exact (lone_code_is_last_name _ _ _ _ Hs Hin Hb).
Defined.

(** ** The segmenter: [parse_records] *)

Lemma marker_nonempty : MARKER <> [].
Proof. intros H. apply (f_equal length) in H. vm_compute in H. discriminate H. Qed.

(** The pieces [split_sep] cuts a text into give the text back when joined
    with the separator, and none of them contains the separator. *)
Lemma split_sep_pieces sep s :
  sep <> [] ->
  Py.join sep (Py.split_sep sep s) = s
  /\ Forall (fun p => ~ occurs sep p) (Py.split_sep sep s)
  /\ Py.split_sep sep s <> [].
Proof.
  intros Hsep. remember (length s) as n eqn:Hn.
  assert (length s <= n)%nat as Hle by lia. clear Hn.
  revert s Hle. induction n as [|n IH]; intros s Hle.
  - destruct s; [|cbn [length] in Hle; lia].
    rewrite FindFacts.split_sep_eq by exact Hsep.
    destruct (Py.find sep []) as [i|] eqn:E.
    + apply FindFacts.find_bound in E. destruct sep; [contradiction|].
      cbn [length] in E. lia.
    + split; [reflexivity|]. split; [|discriminate].
      constructor; [|constructor]. apply FindFacts.find_None, E.
  - rewrite FindFacts.split_sep_eq by exact Hsep.
    destruct (Py.find sep s) as [i|] eqn:E.
    + pose proof (FindFacts.find_bound _ _ _ E) as Hb.
      pose proof (FindFacts.find_Some _ _ _ E) as [Hs Hmin].
      assert (length (drop (i + length sep) s) <= n)%nat as Hlen.
      { rewrite length_drop. destruct sep; [contradiction|].
        cbn [length] in *. lia. }
      destruct (IH _ Hlen) as (Hj & Hall & Hne).
      split; [|split; [|discriminate]].
      * cbn [Py.join].
        destruct (Py.split_sep sep (drop (i + length sep) s)) as [|x l] eqn:El;
          [contradiction|].
        rewrite Hj. symmetry. exact Hs.
      * constructor; [|exact Hall].
        intros (a & b & Hab).
        assert (Py.startswith sep (drop (length a) s) = true) as Hst.
        { rewrite Hs, Hab, <- !app_assoc, drop_app_length.
          apply PyFacts.startswith_app. }
        assert (length a < i)%nat as Hlt.
        { apply (f_equal length) in Hab. rewrite length_take, !length_app in Hab.
          destruct sep; [contradiction|]. cbn [length] in *. lia. }
        rewrite (Hmin _ Hlt) in Hst. discriminate.
    + split; [reflexivity|]. split; [|discriminate].
      constructor; [|constructor]. apply FindFacts.find_None, E.
Qed.

Lemma omap_truthy (ls : list str) :
  omap truthy (List.map parse_line ls) = omap parse_line ls.
Proof.
  induction ls as [|l ls IH]; [reflexivity|].
  cbn [List.map omap list_omap]. rewrite truthy_parse_line.
  cbn [omap list_omap] in IH. rewrite IH. reflexivity.
Qed.

(** The loops tokenize the candidate lines of the blocks, in order. *)
Lemma scan_parts_spec parts records :
  scan_parts parts records =
  records ++ List.map parse_line (concat (List.map segment_lines parts)).
Proof.
  revert records; induction parts as [|p parts IH]; intros records;
    cbn [scan_parts List.map concat].
  - rewrite app_nil_r. reflexivity.
  - rewrite IH, ScanFacts.scan_lines_acc, ScanFacts.scan_lines_spec.
    rewrite LinesFacts.trimmed_splitlines_strip.
    rewrite List.map_app, app_assoc. reflexivity.
Qed.

(** Whether a candidate line gives a record. *)
Lemma tokenizes_raw (ls : list str) :
  List.map (fun r : record => r !! "raw") (omap parse_line ls)
  = List.map Some (List.filter tokenizes ls).
Proof.
  induction ls as [|l ls IH]; [reflexivity|].
  cbn [omap list_omap List.filter]. cbn [omap list_omap] in IH.
  unfold tokenizes at 1. destruct (parse_line l) as [r|] eqn:E.
  - cbn [List.map]. rewrite IH, (parse_line_raw _ _ E). reflexivity.
  - exact IH.
Qed.

Section SegmenterClaims.

Variable get_text : str -> str.

Lemma parse_records_spec html :
  parse_records get_text html
  = omap parse_line (candidate_lines (get_text html)).
Proof.
  unfold parse_records, candidate_lines.
  rewrite scan_parts_spec. cbn [app]. apply omap_truthy.
Qed.

(** C2: [parse_records] tokenizes the candidate lines of the document.  The
    text before the first marker plays no part and a text without the marker
    gives nothing; the candidate lines of a block are its lines, trimmed,
    without the empty ones, up to the first line that contains a terminator;
    the blocks follow each other in the order of the text. *)
Theorem parse_records_segments (html : str) :
  let all_text := get_text html in
  parse_records get_text html = omap parse_line (candidate_lines all_text)
  /\ List.map (fun r : record => r !! "raw") (parse_records get_text html)
     = List.map Some (List.filter tokenizes (candidate_lines all_text))
  /\ (~ occurs MARKER all_text ->
      candidate_lines all_text = [] /\ parse_records get_text html = [])
  /\ (forall pre rest,
        first_occurrence MARKER all_text pre rest ->
        candidate_lines all_text
        = concat (List.map segment_lines (Py.split_sep MARKER rest)))
  /\ (Py.join MARKER (Py.split_sep MARKER all_text) = all_text
      /\ Forall (fun p => ~ occurs MARKER p) (Py.split_sep MARKER all_text))
  /\ (forall part l1 t l2,
        trimmed_lines (Py.splitlines part) = l1 ++ t :: l2 ->
        Forall (fun l => is_terminator l = false) l1 ->
        is_terminator t = true ->
        segment_lines part = l1)
  /\ (forall part,
        Forall (fun l => is_terminator l = false)
               (trimmed_lines (Py.splitlines part)) ->
        segment_lines part = trimmed_lines (Py.splitlines part))
  /\ (forall l, is_terminator l = true
                <-> exists term, In term TERMINATORS /\ occurs term l).
Proof.
  cbv zeta. split; [apply parse_records_spec|].
  split; [rewrite parse_records_spec; apply tokenizes_raw|].
  split; [|split; [|split; [|split; [|split]]]].
  - intros Hno.
    assert (candidate_lines (get_text html) = []) as Hc.
    { unfold candidate_lines.
      rewrite FindFacts.split_sep_absent by (auto using marker_nonempty).
      reflexivity. }
    split; [exact Hc|]. rewrite parse_records_spec, Hc. reflexivity.
  - intros pre rest H. unfold candidate_lines.
    rewrite (FindFacts.split_sep_first _ _ _ _ marker_nonempty H).
    reflexivity.
  - destruct (split_sep_pieces MARKER (get_text html) marker_nonempty)
      as (Hj & Hall & _). auto.
  - intros part l1 t l2 Hl Hl1 Ht. unfold segment_lines. rewrite Hl.
    rewrite ScanFacts.until_terminator_stop by exact Ht.
    apply ScanFacts.until_terminator_clean, Hl1.
  - intros part H. apply ScanFacts.until_terminator_clean, H.
  - apply ScanFacts.is_terminator_occurs.
Qed.

(** C9: a line that contains one of the three literals anywhere ends its
    block: of that block only the lines before it count, whatever follows
    it. *)
Theorem terminator_cuts_segment
    (html : str) (ps1 ps2 : list str) (seg : str)
    (l1 l2 : list str) (t term : str) :
  drop 1 (Py.split_sep MARKER (get_text html)) = ps1 ++ seg :: ps2 ->
  Py.splitlines seg = l1 ++ t :: l2 ->
  In term TERMINATORS -> occurs term t ->
  segment_lines seg = until_terminator (trimmed_lines l1)
  /\ parse_records get_text html
     = omap parse_line
         (concat (List.map segment_lines ps1)
          ++ until_terminator (trimmed_lines l1)
          ++ concat (List.map segment_lines ps2)).
Proof.
  intros Hparts Hlines Hin Hocc.
  assert (segment_lines seg = until_terminator (trimmed_lines l1)) as Hseg.
  { unfold segment_lines. rewrite Hlines.
    change (t :: l2) with ([t] ++ l2). rewrite !ScanFacts.trimmed_lines_app.
    pose proof (ScanFacts.terminator_strip _ _ Hin Hocc) as Ht.
    unfold trimmed_lines at 2. cbn [List.map List.filter].
    destruct (Py.strip t) as [|c s] eqn:E; [discriminate Ht|].
    cbn [nonempty app]. apply ScanFacts.until_terminator_stop, Ht. }
  split; [exact Hseg|].
  rewrite parse_records_spec. unfold candidate_lines. rewrite Hparts.
  rewrite List.map_app, concat_app. cbn [List.map concat].
  rewrite Hseg. reflexivity.
Qed.

End SegmenterClaims.

Lemma parse_records_segments_witness :
  List.map (fun r : record => r !! "raw")
           (parse_records (fun html => html) sample_document)
  = [Some (u"Иванов Пётр Сергеевич мм 12.03.1920 с. Покровка");
     Some (u"Сидорова Анна дд 01.01.05")].
Proof.
  refine (eq_trans
            (proj1 (proj2 (parse_records_segments (fun html => html)
                                                  sample_document))) _).
  vm_compute. reflexivity.
Defined.

Lemma terminator_cuts_segment_witness :
  let l1 := [[]; u"Иванов Пётр Сергеевич мм 12.03.1920 с. Покровка";
             u"Сидорова Анна дд 01.01.05"] in
  let t := u"Все права защищены VGD.ru 2020" in
  let l2 := [u"Петров Иван 01.02.1930 Павлодар"] in
  drop 1 (Py.split_sep MARKER sample_document) = [] ++ sample_block :: []
  /\ Py.splitlines sample_block = l1 ++ t :: l2
  /\ In (u"VGD.ru") TERMINATORS
  /\ occurs (u"VGD.ru") t
  /\ segment_lines sample_block = until_terminator (trimmed_lines l1)
  /\ parse_records (fun html => html) sample_document
     = omap parse_line
         (concat (List.map segment_lines [])
          ++ until_terminator (trimmed_lines l1)
          ++ concat (List.map segment_lines [])).
Proof.
  cbv zeta.
  assert (drop 1 (Py.split_sep MARKER sample_document) = [] ++ sample_block :: [])
    as H1 by (vm_compute; reflexivity).
  assert (Py.splitlines sample_block
          = [[]; u"Иванов Пётр Сергеевич мм 12.03.1920 с. Покровка";
             u"Сидорова Анна дд 01.01.05"]
            ++ u"Все права защищены VGD.ru 2020"
            :: [u"Петров Иван 01.02.1930 Павлодар"])
    as H2 by (vm_compute; reflexivity).
  assert (In (u"VGD.ru") TERMINATORS) as H3 by (vm_compute; auto).
  assert (occurs (u"VGD.ru") (u"Все права защищены VGD.ru 2020")) as H4
    by (exists (u"Все права защищены "), (u" 2020"); vm_compute; reflexivity).
  split; [exact H1|]. split; [exact H2|]. split; [exact H3|]. split; [exact H4|].
  exact (terminator_cuts_segment (fun html => html) sample_document
           [] [] sample_block _ _ _ _ H1 H2 H3 H4).
Defined.

(** ** The scenarios of the specification *)

Example scenario_full_record :
  csv_row <$> parse_line (u"Иванов Пётр Сергеевич мм 12.03.1920 с. Покровка")
  = Some [u"Иванов"; u"Пётр"; u"Сергеевич"; []; u"мм"; u"12.03.1920";
          u"с. Покровка"; u"Иванов Пётр Сергеевич мм 12.03.1920 с. Покровка"].
Proof. vm_compute. reflexivity. Qed.

Example scenario_short_name :
  csv_row <$> parse_line (u"Сидорова Анна дд 01.01.05")
  = Some [u"Сидорова"; u"Анна"; []; []; u"дд"; u"01.01.05"; [];
          u"Сидорова Анна дд 01.01.05"].
Proof. vm_compute. reflexivity. Qed.

Example scenario_long_name :
  csv_row <$> parse_line (u"Ахметов Абай Кунанбай улы оглы жж 05.11.31 аул 5")
  = Some [u"Ахметов"; u"Абай"; u"Кунанбай"; u"улы оглы"; u"жж"; u"05.11.31";
          u"аул 5"; u"Ахметов Абай Кунанбай улы оглы жж 05.11.31 аул 5"].
Proof. vm_compute. reflexivity. Qed.

Example scenario_noise : parse_line (u"??") = None.
Proof. vm_compute. reflexivity. Qed.

Example scenario_no_marker :
  parse_records (fun html => html) (u"Сидорова Анна дд 01.01.05") = [].
Proof. vm_compute. reflexivity. Qed.

Example scenario_segmenter :
  List.map csv_row (parse_records (fun html => html) sample_document)
  = [[u"Иванов"; u"Пётр"; u"Сергеевич"; []; u"мм"; u"12.03.1920";
      u"с. Покровка"; u"Иванов Пётр Сергеевич мм 12.03.1920 с. Покровка"];
     [u"Сидорова"; u"Анна"; []; []; u"дд"; u"01.01.05"; [];
      u"Сидорова Анна дд 01.01.05"]].
Proof. vm_compute. reflexivity. Qed.

(** X8: in the CSV file the two keys a degraded record lacks come out
    empty: its row is seven empty columns and the line. *)
Lemma csv_row_degraded line :
  ~ has_date line -> (3 <= length line)%nat ->
  csv_row <$> parse_line line = Some [[]; []; []; []; []; []; []; line].
Proof.
  intros Hd Hl. apply date_search_None_iff in Hd.
  rewrite (parse_line_no_date _ Hd).
  destruct (length line <? 3)%nat eqn:El; [apply Nat.ltb_lt in El; lia|].
  reflexivity.
Qed.

(** ** Facts about tokens *)

Module TokenFacts.
Import Py PyFacts.

Lemma no_space_app x y : no_space (x ++ y) = no_space x && no_space y.
Proof. apply forallb_app. Qed.

(** Every token of [split] is non-empty and free of whitespace. *)
Lemma split_from_tokens tok s :
  no_space tok = true ->
  Forall (fun t => t <> [] /\ no_space t = true) (split_from tok s).
Proof.
  revert tok; induction s as [|c s IH]; intros tok Htok; cbn [split_from].
  - destruct tok; cbn [emit]; [constructor|].
    constructor; [split; [discriminate | exact Htok] | constructor].
  - destruct (isspace c) eqn:Ec.
    + apply Forall_app. split; [|apply IH; reflexivity].
      destruct tok; cbn [emit]; [constructor|].
      constructor; [split; [discriminate | exact Htok] | constructor].
    + apply IH. rewrite no_space_app, Htok. cbn. rewrite Ec. reflexivity.
Qed.

Lemma split_tokens s : Forall (fun t => t <> [] /\ no_space t = true) (split s).
Proof. apply split_from_tokens. reflexivity. Qed.

Lemma split_from_token t tok s :
  no_space t = true -> split_from tok (t ++ s) = split_from (tok ++ t) s.
Proof.
  revert tok; induction t as [|c t IH]; intros tok H; cbn [app].
  - rewrite app_nil_r. reflexivity.
  - cbn in H. apply andb_true_iff in H as [Hc Ht].
    apply negb_true_iff in Hc. cbn [split_from]. rewrite Hc.
    rewrite IH by exact Ht. rewrite <- app_assoc. reflexivity.
Qed.

(** Splitting what [join] made of tokens gives the tokens back. *)
Lemma split_join toks :
  Forall (fun t => t <> [] /\ no_space t = true) toks ->
  split (join [32] toks) = toks.
Proof.
  induction 1 as [|t toks [Hne Ht] _ IH]; [reflexivity|].
  unfold split in *. cbn [join]. destruct toks as [|t' toks].
  - transitivity (split_from [] (t ++ [])); [rewrite app_nil_r; reflexivity|].
    rewrite split_from_token by exact Ht.
    cbn [app split_from]. destruct t; [contradiction | reflexivity].
  - rewrite split_from_token by exact Ht. cbn [app split_from].
    change (isspace 32) with true. cbn iota. rewrite IH.
    destruct t; [contradiction | reflexivity].
Qed.

Lemma split_from_sep tok x ws y :
  ws <> [] -> forallb isspace ws = true ->
  split_from tok (x ++ ws ++ y) = split_from tok x ++ split y.
Proof.
  intros Hne Hws. revert tok; induction x as [|c x IH]; intros tok; cbn [app].
  - destruct ws as [|w ws]; [contradiction|].
    cbn [forallb] in Hws. apply andb_true_iff in Hws as [Hw Hws].
    cbn [app split_from]. rewrite Hw. f_equal.
    apply (split_spaces_app ws y Hws).
  - cbn [split_from]. destruct (isspace c); rewrite IH;
      [rewrite app_assoc|]; reflexivity.
Qed.

Lemma split_from_nil tok s :
  split_from tok s = [] -> tok = [] /\ forallb isspace s = true.
Proof.
  revert tok; induction s as [|c s IH]; intros tok; cbn [split_from forallb].
  - destruct tok; [auto | discriminate].
  - destruct (isspace c).
    + intros H. apply app_eq_nil in H as [H1 H2].
      destruct tok; [|discriminate]. split; [reflexivity|].
      apply (IH [] H2).
    + intros H. apply IH in H as [H _]. destruct tok; discriminate.
Qed.

Lemma lstrip_fixed_head s : lstrip s = s -> forall c t, s = c :: t -> isspace c = false.
Proof. intros H c t ->. apply (lstrip_head _ _ _ H). Qed.

Lemma rstrip_head_keep c t : isspace c = false -> exists t', rstrip (c :: t) = c :: t'.
Proof.
  intros Hc. cbn [rstrip]. destruct (rstrip t); [rewrite Hc|]; eauto.
Qed.

Lemma lstrip_strip s : lstrip (strip s) = strip s.
Proof.
  unfold strip. destruct (lstrip s) as [|c t] eqn:E; [reflexivity|].
  pose proof (lstrip_head _ _ _ E) as Hc.
  destruct (rstrip_head_keep c t Hc) as [t' ->].
  cbn [lstrip]. rewrite Hc. reflexivity.
Qed.

Lemma strip_idem s : strip (strip s) = strip s.
Proof.
  unfold strip at 1. rewrite lstrip_strip. apply rstrip_strip.
Qed.

Lemma lstrip_length s : (length (lstrip s) <= length s)%nat.
Proof.
  destruct (lstrip_decomp s) as (ws & Hs & _).
  rewrite Hs at 2. rewrite length_app. lia.
Qed.

Lemma rstrip_no_space t : no_space t = true -> rstrip t = t.
Proof.
  induction t as [|c t IH]; [reflexivity|]. cbn.
  intros H. apply andb_true_iff in H as [Hc Ht].
  apply negb_true_iff in Hc. rewrite (IH Ht).
  destruct t; [rewrite Hc|]; reflexivity.
Qed.

(** Tokens joined with single spaces begin and end with a token: trimming
    changes nothing. *)
Lemma strip_join toks :
  Forall (fun t => t <> [] /\ no_space t = true) toks ->
  strip (join [32] toks) = join [32] toks.
Proof.
  intros H.
  assert (rstrip (join [32] toks) = join [32] toks) as Hr.
  { induction H as [|t toks [Hne Ht] Htoks IH]; [reflexivity|].
    cbn [join]. destruct toks as [|t' toks].
    - apply rstrip_no_space, Ht.
    - assert (join [32] (t' :: toks) <> []) as Hj.
      { inversion Htoks as [|? ? [Hne' _] _]; subst.
        cbn [join]. destruct toks; [exact Hne'|].
        destruct t'; [contradiction | discriminate]. }
      rewrite ScanFacts.rstrip_app_keep.
      + rewrite ScanFacts.rstrip_app_keep; rewrite IH;
          [reflexivity | exact Hj].
      + rewrite ScanFacts.rstrip_app_keep; rewrite IH;
          [discriminate | exact Hj]. }
  unfold strip.
  assert (lstrip (join [32] toks) = join [32] toks) as ->; [|exact Hr].
  destruct H as [|t toks [Hne Ht] _]; [reflexivity|].
  destruct t as [|c t]; [contradiction|].
  cbn in Ht. apply andb_true_iff in Ht as [Hc _]. apply negb_true_iff in Hc.
  cbn [join]. destruct toks; cbn [app lstrip]; rewrite Hc; reflexivity.
Qed.

End TokenFacts.

(** ** Further properties of [parse_line] *)

Lemma item_tokens (toks : list str) k :
  Forall (fun t => t <> [] /\ no_space t = true) toks ->
  no_space (Py.item_or_empty toks k) = true
  /\ (Py.item_or_empty toks k = [] <-> (length toks <= k)%nat).
Proof.
  intros H. unfold Py.item_or_empty.
  destruct (toks !! k) as [t|] eqn:E.
  - pose proof (lookup_lt_Some _ _ _ E) as Hlt.
    rewrite List.Forall_forall in H.
    apply list_elem_of_lookup_2, list_elem_of_In in E.
    destruct (H _ E) as [Hne Ht]. split; [exact Ht|].
    split; [intros ->; contradiction | lia].
  - apply lookup_ge_None_1 in E. split; [reflexivity|]. tauto.
Qed.

(** The first three tokens are the name fields that are not empty. *)
Lemma take3_items (toks : list str) :
  Forall (fun t => t <> [] /\ no_space t = true) toks ->
  List.filter nonempty
    [Py.item_or_empty toks 0; Py.item_or_empty toks 1; Py.item_or_empty toks 2]
  = take 3 toks.
Proof.
  intros H.
  assert (forall t, In t toks -> nonempty t = true) as Hne.
  { rewrite List.Forall_forall in H. intros t Ht. destruct (H t Ht) as [Hn _].
    destruct t; [contradiction | reflexivity]. }
  destruct toks as [|a [|b [|c toks]]]; cbn in *;
    rewrite ?(Hne a), ?(Hne b), ?(Hne c) by auto; reflexivity.
Qed.

(** The gender code, when there is one, is the last token of the text before
    the date, and the name text holds the tokens before it. *)
Lemma split_before_date b :
  Py.rstrip b = b ->
  Py.split b = Py.split (name_text_of b) ++ Py.emit (gender_of b).
Proof.
  intros Hb.
  destruct (name_text_cases b Hb) as [[E _]|(p & code & E & Hsuf)].
  - unfold name_text_of, gender_of. rewrite E. cbn [Py.emit].
    rewrite app_nil_r. reflexivity.
  - destruct (GenderFacts.gender_of_suffix _ _ _ Hsuf) as [-> ->].
    destruct Hsuf as (Hin & ws & Hne & Hws & Hbeq).
    rewrite Hbeq at 1. unfold Py.split at 1.
    rewrite (TokenFacts.split_from_sep [] _ ws code Hne Hws).
    f_equal.
    destruct (GenderFacts.gender_code_cases _ Hin) as [->|[->| ->]]; reflexivity.
Qed.

(** X2: when a date is found the line is the text before the date, the date and
    the text after it; no date starts earlier, the date takes every digit it
    can up to a year of four, and [place] is the text after it, trimmed. *)
Theorem line_decomposition (line : str) :
  has_date line ->
  exists (r : record) before d after,
    parse_line line = Some r
    /\ line = before ++ d ++ after
    /\ r !! "date_birth" = Some d
    /\ r !! "place" = Some (Py.strip after)
    /\ Py.strip (Py.strip after) = Py.strip after
    /\ (8 <= length d <= 10)%nat
    /\ ((length d < 10)%nat ->
        match after with c :: _ => Py.isdecimal c = false | [] => True end)
    /\ forall pre d' post,
         line = pre ++ d' ++ post -> valid_date d' = true ->
         (length before <= length pre)%nat.
Proof.
  intros H. destruct (date_search line) as [[i j]|] eqn:E;
    [|apply date_search_None_iff in E; contradiction].
  destruct (date_search_Some _ _ _ E) as (Hij & Hj & Hm & Hmin).
  pose proof (date_match_Some _ _ Hm) as (Hn & Hlen & _ & Hstop).
  destruct (parse_line_date_fields _ _ _ E) as (r & Hp & _ & Hd & Hpl & _).
  exists r, (take i line), (drop i (take j line)), (drop j line).
  assert (length (drop i (take j line)) = j - i)%nat as Hdl
    by (rewrite length_drop, length_take; lia).
  split; [exact Hp|]. split.
  { rewrite <- (take_drop j line) at 1.
    rewrite <- (take_drop i (take j line)) at 1.
    rewrite take_take, Nat.min_l, <- app_assoc by lia. reflexivity. }
  split; [exact Hd|]. split; [exact Hpl|].
  split; [apply TokenFacts.strip_idem|]. split; [lia|]. split.
  - rewrite Hdl. intros Hlt. specialize (Hstop Hlt).
    rewrite drop_drop in Hstop.
    replace (i + (j - i))%nat with j in Hstop by lia. exact Hstop.
  - intros pre d' post -> Hv. rewrite length_take.
    destruct (Nat.le_gt_cases i (length pre)) as [|Hlt]; [lia|].
    specialize (Hmin _ Hlt). rewrite drop_app_length in Hmin.
    destruct (date_match_valid d' post Hv) as [n Hn']. congruence.
Qed.

Lemma line_decomposition_witness :
  let line := u"Иванов Пётр мм 12.03.19201 Покровка" in
  has_date line
  /\ exists (r : record) before d after,
    parse_line line = Some r
    /\ line = before ++ d ++ after
    /\ r !! "date_birth" = Some d
    /\ r !! "place" = Some (Py.strip after)
    /\ Py.strip (Py.strip after) = Py.strip after
    /\ (8 <= length d <= 10)%nat
    /\ ((length d < 10)%nat ->
        match after with c :: _ => Py.isdecimal c = false | [] => True end)
    /\ forall pre d' post,
         line = pre ++ d' ++ post -> valid_date d' = true ->
         (length before <= length pre)%nat.
Proof.
  cbv zeta.
  assert (has_date (u"Иванов Пётр мм 12.03.19201 Покровка")) as H
    by (exists (u"Иванов Пётр мм "), (u"12.03.1920"), (u"1 Покровка");
        split; vm_compute; reflexivity).
  split; [exact H|]. exact (line_decomposition _ H).
Defined.

(** X3: the name fields hold no whitespace and fill from the left: an empty
    field is followed by empty fields only; [extra] keeps no whitespace at
    its ends. *)
Theorem name_fields_fill_left (line : str) (r : record) :
  parse_line line = Some r ->
  exists l f p,
    r !! "last_name" = Some l /\ r !! "first_name" = Some f
    /\ r !! "patronymic" = Some p
    /\ no_space l = true /\ no_space f = true /\ no_space p = true
    /\ (l = [] -> f = []) /\ (f = [] -> p = [])
    /\ forall e, r !! "extra" = Some e ->
                 (p = [] -> e = []) /\ Py.strip e = e.
Proof.
  destruct (date_search line) as [[i j]|] eqn:E.
  - destruct (parse_line_date_fields _ _ _ E) as (r' & Hp & _ & _ & _ & _ & Hn).
    rewrite Hp. intros [= <-].
    set (toks := Py.split (name_text_of (Py.strip (take i line)))) in *.
    pose proof (TokenFacts.split_tokens
                  (name_text_of (Py.strip (take i line)))) as Htoks.
    fold toks in Htoks.
    destruct Hn as (H0 & H1 & H2 & H3).
    destruct (item_tokens toks 0 Htoks) as [N0 L0].
    destruct (item_tokens toks 1 Htoks) as [N1 L1].
    destruct (item_tokens toks 2 Htoks) as [N2 L2].
    eexists _, _, _. repeat (split; [eassumption|]).
    split; [intros Hl; apply L1; apply L0 in Hl; lia|].
    split; [intros Hl; apply L2; apply L1 in Hl; lia|].
    intros e He. pose proof (eq_trans (eq_sym H3) He) as Heq.
    injection Heq as <-. change (Py.decode " ") with [32].
    split.
    + intros Hl. apply L2 in Hl. rewrite drop_ge by lia. reflexivity.
    + apply TokenFacts.strip_join. apply Forall_drop, Htoks.
  - rewrite (parse_line_no_date _ E).
    destruct (length line <? 3)%nat; [discriminate|]. intros [= <-].
    exists [], [], [].
    split; [apply dict_degraded_lookup|]. split; [apply dict_degraded_lookup|].
    split; [apply dict_degraded_lookup|].
    split; [reflexivity|]. split; [reflexivity|]. split; [reflexivity|].
    split; [auto|]. split; [auto|].
    intros e He.
    assert (dict [("raw", line); ("last_name", []); ("first_name", []);
                  ("patronymic", []); ("date_birth", []); ("place", [])]
            !! "extra" = None) as Hnone by apply dict_degraded_lookup.
    pose proof (eq_trans (eq_sym He) Hnone) as Hc. discriminate Hc.
Qed.

Lemma name_fields_fill_left_witness :
  let line := u"Сидорова Анна дд 01.01.05" in
  exists r : record, parse_line line = Some r
  /\ exists l f p,
    r !! "last_name" = Some l /\ r !! "first_name" = Some f
    /\ r !! "patronymic" = Some p
    /\ no_space l = true /\ no_space f = true /\ no_space p = true
    /\ (l = [] -> f = []) /\ (f = [] -> p = [])
    /\ forall e, r !! "extra" = Some e ->
                 (p = [] -> e = []) /\ Py.strip e = e.
Proof.
  cbv zeta.
  assert (date_search (u"Сидорова Анна дд 01.01.05") = Some (17, 25)%nat) as Hs
    by (vm_compute; reflexivity).
  destruct (parse_line_date_fields _ _ _ Hs) as (r & Hp & _).
  exists r. split; [exact Hp|]. exact (name_fields_fill_left _ r Hp).
Defined.

(** X4: no token of the text before the date is lost or moved: the name fields
    that are not empty, the tokens of [extra] and the gender list them in
    order. *)
Theorem fields_recover_tokens (line : str) (i j : nat) :
  date_search line = Some (i, j) ->
  exists (r : record) l f p e g,
    parse_line line = Some r
    /\ r !! "last_name" = Some l /\ r !! "first_name" = Some f
    /\ r !! "patronymic" = Some p /\ r !! "extra" = Some e
    /\ r !! "gender" = Some g
    /\ Py.split (take i line)
       = List.filter nonempty [l; f; p] ++ Py.split e ++ Py.emit g.
Proof.
  intros E.
  destruct (parse_line_date_fields _ _ _ E) as (r & Hp & _ & _ & _ & Hg & Hn).
  destruct Hn as (H0 & H1 & H2 & H3).
  set (b := Py.strip (take i line)) in *.
  set (toks := Py.split (name_text_of b)) in *.
  pose proof (TokenFacts.split_tokens (name_text_of b)) as Htoks.
  fold toks in Htoks.
  eexists r, _, _, _, _, _. split; [exact Hp|].
  repeat (split; [eassumption|]).
  rewrite take3_items by exact Htoks.
  change (Py.decode " ") with [32].
  rewrite TokenFacts.split_join by (apply Forall_drop, Htoks).
  rewrite app_assoc, take_drop.
  rewrite <- (PyFacts.split_strip (take i line)). fold b.
  apply split_before_date. apply PyFacts.rstrip_strip.
Qed.

Lemma fields_recover_tokens_witness :
  let line := u"Ахметов Абай Кунанбай улы оглы жж 05.11.31 аул 5" in
  date_search line = Some (34, 42)%nat
  /\ exists (r : record) l f p e g,
    parse_line line = Some r
    /\ r !! "last_name" = Some l /\ r !! "first_name" = Some f
    /\ r !! "patronymic" = Some p /\ r !! "extra" = Some e
    /\ r !! "gender" = Some g
    /\ Py.split (take 34 line)
       = List.filter nonempty [l; f; p] ++ Py.split e ++ Py.emit g.
Proof.
  cbv zeta.
  assert (date_search (u"Ахметов Абай Кунанбай улы оглы жж 05.11.31 аул 5")
          = Some (34, 42)%nat) as Hs by (vm_compute; reflexivity).
  split; [exact Hs|]. exact (fields_recover_tokens _ _ _ Hs).
Defined.

(** X5: a gender is only ever found after a name: when [gender] is not empty,
    [last_name] is not empty either. *)
Theorem gender_needs_last_name (line : str) (r : record) (g : str) :
  parse_line line = Some r ->
  r !! "gender" = Some g -> g <> [] ->
  exists l, r !! "last_name" = Some l /\ l <> [].
Proof.
  intros Hp Hg Hne. destruct (date_search line) as [[i j]|] eqn:E.
  - destruct (parse_line_date_fields _ _ _ E) as (r' & Hp' & _ & _ & _ & Hg' & Hn).
    assert (r' = r) as -> by congruence.
    set (b := Py.strip (take i line)) in *.
    assert (gender_of b = g) as Hgb.
    { pose proof (eq_trans (eq_sym Hg') Hg) as Hc. injection Hc as Hc. exact Hc. }
    destruct Hn as (H0 & _).
    eexists. split; [exact H0|].
    pose proof (TokenFacts.split_tokens (name_text_of b)) as Htoks.
    destruct (Py.split (name_text_of b)) as [|t toks] eqn:Es.
    + exfalso.
      unfold gender_of, name_text_of in *.
      destruct (gender_search b) as [[p code]|] eqn:Eg; [|congruence].
      rewrite PyFacts.split_strip in Es.
      apply TokenFacts.split_from_nil in Es as [_ Hsp].
      apply GenderFacts.gender_search_Some in Eg
        as (Hin & w1 & w2 & Hb & Hw1 & Hs1 & Hs2).
      pose proof (TokenFacts.lstrip_strip (take i line)) as Hfix. fold b in Hfix.
      rewrite Hb in Hfix at 1.
      rewrite app_assoc, PyFacts.lstrip_spaces in Hfix
        by (rewrite forallb_app, Hsp, Hs1; reflexivity).
      apply (f_equal length) in Hfix.
      pose proof (TokenFacts.lstrip_length (code ++ w2)) as Hl.
      rewrite Hfix in Hl. rewrite Hb in Hl at 1. rewrite !length_app in Hl.
      destruct w1; [contradiction | cbn [length] in Hl; lia].
    + inversion Htoks as [|? ? [Ht _] _]; subst. exact Ht.
  - rewrite (parse_line_no_date _ E) in Hp.
    destruct (length line <? 3)%nat; [discriminate|]. injection Hp as <-.
    assert (dict [("raw", line); ("last_name", []); ("first_name", []);
                  ("patronymic", []); ("date_birth", []); ("place", [])]
            !! "gender" = None) as Hnone by apply dict_degraded_lookup.
    pose proof (eq_trans (eq_sym Hg) Hnone) as Hc. discriminate Hc.
Qed.

Lemma gender_needs_last_name_witness :
  let line := u"Сидорова Анна дд 01.01.05" in
  exists (r : record),
    parse_line line = Some r /\ r !! "gender" = Some (u"дд") /\ u"дд" <> []
    /\ exists l, r !! "last_name" = Some l /\ l <> [].
Proof.
  cbv zeta.
  assert (date_search (u"Сидорова Анна дд 01.01.05") = Some (17, 25)%nat) as Hs
    by (vm_compute; reflexivity).
  destruct (parse_line_date_fields _ _ _ Hs) as (r & Hp & _ & _ & _ & Hg & _).
  assert (r !! "gender" = Some (u"дд")) as Hg'
    by (refine (eq_trans Hg _); f_equal; vm_compute; reflexivity).
  assert (u"дд" <> []) as Hne by (vm_compute; discriminate).
  exists r. split; [exact Hp|]. split; [exact Hg'|]. split; [exact Hne|].
  exact (gender_needs_last_name _ r _ Hp Hg' Hne).
Defined.

(** X6: a line gives no record exactly when it has fewer than three characters:
    a line that short holds no date. *)
Theorem dropped_iff_short (line : str) :
  parse_line line = None <-> (length line < 3)%nat.
Proof.
  destruct (date_search line) as [[i j]|] eqn:E.
  - rewrite (parse_line_date _ _ _ E).
    destruct (date_search_Some _ _ _ E) as (_ & Hj & Hm & _).
    apply date_match_Some in Hm as (Hn & _).
    split; [discriminate | lia].
  - rewrite (parse_line_no_date _ E).
    destruct (length line <? 3)%nat eqn:El.
    + apply Nat.ltb_lt in El. tauto.
    + apply Nat.ltb_ge in El. split; [discriminate | lia].
Qed.


Lemma dom_dict (items : list (string * str)) :
  dom (dict items) = list_to_set (items.*1).
Proof. unfold dict. apply (dom_list_to_map_L (M:=gmap string)). Qed.

(** X7: the keys of a record are the eight field names when the line has a
    date, and the six of the other branch when it has none, with no
    [extra] and no [gender]. *)
Theorem record_keys (line : str) (r : record) :
  parse_line line = Some r ->
  (has_date line
   /\ dom r = list_to_set FIELDNAMES)
  \/ (~ has_date line
      /\ dom r = list_to_set ["raw"; "last_name"; "first_name"; "patronymic";
                              "date_birth"; "place"]%string).
Proof.
  destruct (date_search line) as [[i j]|] eqn:E.
  - rewrite (parse_line_date _ _ _ E). intros H.
    apply (inj Some) in H. subst r. left.
    split; [exact (date_search_has_date _ _ _ E)|].
    rewrite dom_dict. reflexivity.
  - rewrite (parse_line_no_date _ E).
    destruct (length line <? 3)%nat; [discriminate|]. intros H.
    apply (inj Some) in H. subst r. right.
    split; [apply date_search_None_iff, E|].
    rewrite dom_dict. reflexivity.
Qed.

Lemma record_keys_witness :
  let line := u"Сидорова Анна дд 01.01.05" in
  exists r : record, parse_line line = Some r
  /\ ((has_date line /\ dom r = list_to_set FIELDNAMES)
      \/ (~ has_date line
          /\ dom r = list_to_set ["raw"; "last_name"; "first_name";
                                  "patronymic"; "date_birth"; "place"]%string)).
Proof.
  cbv zeta.
  assert (date_search (u"Сидорова Анна дд 01.01.05") = Some (17, 25)%nat) as Hs
    by (vm_compute; reflexivity).
  destruct (parse_line_date_fields _ _ _ Hs) as (r & Hp & _).
  exists r. split; [exact Hp|]. exact (record_keys _ r Hp).
Defined.

(** ** Further properties of [parse_records] *)

Module CandidateFacts.
Import Py PyFacts.

Lemma until_terminator_In l ls :
  In l (until_terminator ls) -> In l ls /\ is_terminator l = false.
Proof.
  induction ls as [|x ls IH]; cbn [until_terminator]; [intros []|].
  destruct (is_terminator x) eqn:E; [intros []|].
  intros [<-|H]; [split; [left; reflexivity | exact E]|].
  destruct (IH H) as [H1 H2]. split; [right; exact H1 | exact H2].
Qed.

Lemma trimmed_lines_In l ls :
  In l (trimmed_lines ls) -> l <> [] /\ exists x, In x ls /\ l = strip x.
Proof.
  unfold trimmed_lines. intros H. apply filter_In in H as [H Hne].
  apply in_map_iff in H as (x & <- & Hx).
  split; [destruct (strip x); [discriminate | discriminate]|].
  exists x. auto.
Qed.

Lemma no_linebreak_app x y :
  no_linebreak (x ++ y) = no_linebreak x && no_linebreak y.
Proof. apply forallb_app. Qed.

(** A line of [splitlines] holds no line break: it is the line being read
    with what follows it up to the next break, or a stretch of the text. *)
Lemma splitlines_from_In cur s x :
  no_linebreak cur = true ->
  In x (splitlines_from cur s) ->
  no_linebreak x = true
  /\ ((exists p b, x = cur ++ p /\ s = p ++ b /\ no_linebreak p = true)
      \/ exists a b, s = a ++ x ++ b).
Proof.
  revert cur; induction s as [|c s IH]; intros cur Hcur; cbn [splitlines_from].
  - destruct cur as [|c0 cur]; cbn [emit]; [intros []|].
    intros [<-|[]]. split; [exact Hcur|]. left. exists [], [].
    rewrite app_nil_r. auto.
  - destruct (islinebreak c) eqn:Ec.
    + destruct ((c =? 13) && starts_with_lf s) eqn:Ecr.
      * intros H. destruct (IH cur Hcur H) as [Hx [(p & b & -> & -> & Hp)|(a & b & ->)]].
        -- split; [exact Hx|].
           apply andb_true_iff in Ecr as [_ Elf].
           destruct p as [|c' p].
           ++ left. exists [], (c :: b). auto.
           ++ cbn [app starts_with_lf] in Elf. apply N.eqb_eq in Elf as ->.
              cbn in Hp. discriminate Hp.
        -- split; [exact Hx|]. right. exists (c :: a), b. reflexivity.
      * intros [<-|H].
        -- split; [exact Hcur|]. left. exists [], (c :: s).
           rewrite app_nil_r. auto.
        -- destruct (IH [] eq_refl H) as [Hx [(p & b & -> & -> & Hp)|(a & b & ->)]];
             (split; [exact Hx|]); right.
           ++ exists [c], b. reflexivity.
           ++ exists (c :: a), b. reflexivity.
    + intros H.
      assert (no_linebreak (cur ++ [c]) = true) as Hcur'
        by (rewrite no_linebreak_app, Hcur; cbn; rewrite Ec; reflexivity).
      destruct (IH _ Hcur' H) as [Hx [(p & b & -> & -> & Hp)|(a & b & ->)]];
        (split; [exact Hx|]).
      * left. exists (c :: p), b. rewrite <- app_assoc.
        split; [reflexivity|]. split; [reflexivity|].
        cbn. rewrite Ec. exact Hp.
      * right. exists (c :: a), b. reflexivity.
Qed.

Lemma splitlines_In s x :
  In x (splitlines s) -> no_linebreak x = true /\ occurs x s.
Proof.
  intros H. destruct (splitlines_from_In [] s x eq_refl H)
    as [Hx [(p & b & -> & -> & _)|(a & b & ->)]]; (split; [exact Hx|]).
  - exists [], b. reflexivity.
  - exists a, b. reflexivity.
Qed.

Lemma occurs_trans a b c : occurs a b -> occurs b c -> occurs a c.
Proof.
  intros (x & y & ->) (x' & y' & ->). exists (x' ++ x), (y ++ y').
  rewrite <- !app_assoc. reflexivity.
Qed.

Lemma occurs_strip_in s : occurs (strip s) s.
Proof.
  destruct (strip_decomp s) as (w1 & w2 & Hs & _). exists w1, w2. exact Hs.
Qed.

Lemma no_linebreak_occurs x s : occurs x s -> no_linebreak s = true -> no_linebreak x = true.
Proof.
  intros (a & b & ->). rewrite !no_linebreak_app, !andb_true_iff. tauto.
Qed.

(** What a candidate line of a block is. *)
Lemma segment_lines_In l part :
  In l (segment_lines part) ->
  l <> [] /\ strip l = l /\ is_terminator l = false
  /\ no_linebreak l = true /\ occurs l part.
Proof.
  unfold segment_lines. intros H.
  apply until_terminator_In in H as [H Hterm].
  apply trimmed_lines_In in H as (Hne & x & Hx & ->).
  apply splitlines_In in Hx as [Hlb Hocc].
  split; [exact Hne|]. split; [apply TokenFacts.strip_idem|].
  split; [exact Hterm|]. split.
  - eapply no_linebreak_occurs; [apply occurs_strip_in | exact Hlb].
  - eapply occurs_trans; [apply occurs_strip_in | exact Hocc].
Qed.

End CandidateFacts.

Section SegmenterProperties.

Variable get_text : str -> str.

(** X9: every record [parse_records] returns is the record of its own [raw]
    line, and that line is a candidate line: not empty, trimmed, on one
    line, with none of the terminator literals and without the marker. *)
Theorem records_are_clean (html : str) (r : record) :
  In r (parse_records get_text html) ->
  exists l, r !! "raw" = Some l /\ parse_line l = Some r
    /\ In l (candidate_lines (get_text html))
    /\ l <> [] /\ Py.strip l = l /\ no_linebreak l = true
    /\ is_terminator l = false
    /\ (forall term, In term TERMINATORS -> ~ occurs term l)
    /\ ~ occurs MARKER l.
Proof.
  rewrite parse_records_spec. intros H.
  apply list_elem_of_In, list_elem_of_omap in H as (l & Hl & Hp).
  apply list_elem_of_In in Hl.
  exists l. split; [apply parse_line_raw, Hp|]. split; [exact Hp|].
  split; [exact Hl|].
  unfold candidate_lines in Hl. apply in_concat in Hl as (ls & Hls & Hl).
  apply in_map_iff in Hls as (part & <- & Hpart).
  destruct (CandidateFacts.segment_lines_In _ _ Hl)
    as (Hne & Hs & Ht & Hlb & Hocc).
  split; [exact Hne|]. split; [exact Hs|]. split; [exact Hlb|].
  split; [exact Ht|]. split.
  - intros term Hin Hoc.
    assert (is_terminator l = true) as Ht'
      by (apply ScanFacts.is_terminator_occurs; eauto).
    congruence.
  - intros Hm.
    destruct (split_sep_pieces MARKER (get_text html) marker_nonempty)
      as (_ & Hall & _).
    rewrite List.Forall_forall in Hall.
    apply (Hall part).
    + destruct (Py.split_sep MARKER (get_text html)) as [|p0 ps];
        [destruct Hpart|].
      right. exact Hpart.
    + eapply CandidateFacts.occurs_trans; [exact Hm | exact Hocc].
Qed.

(** X10: whitespace around a block and blank lines inside it change nothing:
    the loop gives the same records with or without the [strip] of the
    block, and with or without a line of whitespace. *)
Theorem whitespace_is_transparent
    (part : str) (l1 l2 : list str) (w : str) (records : list (option record)) :
  forallb Py.isspace w = true ->
  scan_lines (Py.splitlines (Py.strip part)) records
  = scan_lines (Py.splitlines part) records
  /\ scan_lines (l1 ++ w :: l2) records = scan_lines (l1 ++ l2) records.
Proof.
  intros Hw. split.
  - rewrite (ScanFacts.scan_lines_acc (Py.splitlines (Py.strip part))).
    rewrite (ScanFacts.scan_lines_acc (Py.splitlines part)).
    rewrite !ScanFacts.scan_lines_spec, LinesFacts.trimmed_splitlines_strip.
    reflexivity.
  - rewrite (ScanFacts.scan_lines_acc (l1 ++ w :: l2)).
    rewrite (ScanFacts.scan_lines_acc (l1 ++ l2)).
    rewrite !ScanFacts.scan_lines_spec.
    rewrite (ScanFacts.trimmed_lines_app l1 (w :: l2)).
    rewrite (ScanFacts.trimmed_lines_app l1 l2).
    replace (trimmed_lines (w :: l2)) with (trimmed_lines l2)
      by (symmetry; apply LinesFacts.trimmed_cons_spaces; exact Hw).
    reflexivity.
Qed.

(** X11: the [raw] fields of the records of a page are its candidate lines of
    three characters or more, each once and in the order of the page: no
    other candidate line is lost, and none is split or joined. *)
Theorem raw_column (html : str) :
  omap (fun r : record => r !! "raw") (parse_records get_text html)
  = List.filter (fun l => (3 <=? length l)%nat)
                (candidate_lines (get_text html))
  /\ length (parse_records get_text html)
     = length (List.filter (fun l => (3 <=? length l)%nat)
                           (candidate_lines (get_text html))).
Proof.
  rewrite parse_records_spec.
  induction (candidate_lines (get_text html)) as [|l ls [IH1 IH2]];
    [split; reflexivity|].
  cbn [omap list_omap List.filter].
  destruct (parse_line l) as [r|] eqn:E.
  - pose proof (parse_line_raw _ _ E) as Hraw.
    assert ((3 <=? length l)%nat = true) as ->.
    { apply Nat.leb_le. destruct (date_search l) as [[i j]|] eqn:Ed.
      - destruct (date_search_Some _ _ _ Ed) as (_ & Hj & Hm & _).
        apply date_match_Some in Hm as (Hn & _). lia.
      - rewrite (parse_line_no_date _ Ed) in E.
        destruct (length l <? 3)%nat eqn:El; [discriminate|].
        apply Nat.ltb_ge in El. exact El. }
    cbn [omap list_omap length].
    replace (r !! "raw") with (Some l) by (symmetry; exact Hraw).
    split; [f_equal; exact IH1 | f_equal; exact IH2].
  - assert ((3 <=? length l)%nat = false) as ->.
    { apply Nat.leb_gt. destruct (date_search l) as [[i j]|] eqn:Ed.
      - rewrite (parse_line_date _ _ _ Ed) in E. discriminate.
      - rewrite (parse_line_no_date _ Ed) in E.
        destruct (length l <? 3)%nat eqn:El; [|discriminate].
        apply Nat.ltb_lt in El. exact El. }
    split; [exact IH1 | exact IH2].
Qed.

End SegmenterProperties.

Lemma records_are_clean_witness :
  exists r : record,
    In r (parse_records (fun html => html) sample_document)
    /\ exists l, r !! "raw" = Some l /\ parse_line l = Some r
      /\ In l (candidate_lines sample_document)
      /\ l <> [] /\ Py.strip l = l /\ no_linebreak l = true
      /\ is_terminator l = false
      /\ (forall term, In term TERMINATORS -> ~ occurs term l)
      /\ ~ occurs MARKER l.
Proof.
  destruct (parse_records (fun html => html) sample_document) as [|r rs] eqn:E.
  - apply (f_equal length) in E. vm_compute in E. discriminate E.
  - exists r. assert (In r (parse_records (fun html => html) sample_document))
      as Hin by (rewrite E; left; reflexivity).
    rewrite <- E. split; [exact Hin|].
    exact (records_are_clean (fun html => html) sample_document r Hin).
Defined.

Lemma whitespace_is_transparent_witness :
  let part := u"  Сидорова Анна" ++ [13; 10] ++ u" 01.01.05  " ++ [10; 10] in
  let w := [32; 9] in
  let l1 := [u"Сидорова Анна дд 01.01.05"] in
  let l2 := [u"Петров Иван 01.02.1930 Павлодар"] in
  forallb Py.isspace w = true
  /\ scan_lines (Py.splitlines (Py.strip part)) []
     = scan_lines (Py.splitlines part) []
  /\ scan_lines (l1 ++ w :: l2) [] = scan_lines (l1 ++ l2) [].
Proof.
  cbv zeta.
  assert (forallb Py.isspace [32; 9] = true) as Hw by (vm_compute; reflexivity).
  split; [exact Hw|].
  exact (whitespace_is_transparent _ _ _ _ [] Hw).
Defined.

(** ** Properties of [fetch_page] and [main] *)

Lemma int_str_inj (a b : Z) : int_str a = int_str b -> a = b.
Proof.
  unfold int_str. intros H.
  assert (forall x y : list ascii,
             List.map N_of_ascii x = List.map N_of_ascii y -> x = y) as Hmap.
  { induction x as [|c x IH]; intros [|d y] Hxy; try discriminate; [reflexivity|].
    cbn [List.map] in Hxy. injection Hxy as Hcd Hxy.
    f_equal; [|apply IH, Hxy].
    rewrite <- (ascii_N_embedding c), <- (ascii_N_embedding d), Hcd. reflexivity. }
  apply Hmap in H.
  apply (f_equal string_of_list_ascii) in H.
  rewrite !string_of_list_ascii_of_string in H.
  apply (f_equal NilEmpty.int_of_string) in H.
  rewrite !NilEmpty.isi in H. injection H as H.
  apply DecimalZ.to_int_inj in H. exact H.
Qed.

(** [fetch_page] asks for the same address only for the same offset. *)
Lemma page_url_inj (a b : Z) : page_url a = page_url b <-> a = b.
Proof.
  split; [|intros ->; reflexivity].
  unfold page_url. intros H.
  apply app_inv_head, app_inv_tail in H. apply int_str_inj, H.
Qed.

Lemma fetched_app t1 t2 : fetched (t1 ++ t2) = fetched t1 ++ fetched t2.
Proof.
  unfold fetched. induction t1 as [|e t1 IH]; [reflexivity|].
  cbn [app omap list_omap]. cbn [omap list_omap] in IH.
  destruct e; rewrite IH; reflexivity.
Qed.

Section MainProperties.

Variable http_get : str -> option str.
Variable get_text : str -> str.

Lemma fold_visit ks st :
  all_records (fold_left (visit http_get get_text) ks st)
  = all_records st
    ++ concat (List.map
                 (fun k => match fetch_page http_get ((k - 1) * 10)%Z with
                           | Some html => parse_records get_text html
                           | None => []
                           end) ks)
  /\ fetched (trace (fold_left (visit http_get get_text) ks st))
     = fetched (trace st)
       ++ List.map (fun k => page_url ((k - 1) * 10)%Z) ks.
Proof.
  revert st; induction ks as [|k ks IH]; intros st; cbn [fold_left List.map concat].
  - rewrite !app_nil_r. auto.
  - destruct (IH (visit http_get get_text st k)) as [IH1 IH2].
    rewrite IH1, IH2. unfold visit.
    destruct (fetch_page http_get ((k - 1) * 10)%Z) as [html|];
      cbn [all_records trace]; rewrite fetched_app, <- !app_assoc;
      cbn [app]; auto.
Qed.

(** X12: the records [main] collects are those of the pages that were read, in
    the order of the pages; a page that could not be read adds none and
    does not end the loop. *)
Theorem main_loop_records (total_pages : Z) :
  all_records (main_loop http_get get_text total_pages)
  = concat (List.map
              (fun k => match fetch_page http_get ((k - 1) * 10)%Z with
                        | Some html => parse_records get_text html
                        | None => []
                        end) (page_numbers total_pages)).
Proof. unfold main_loop. apply fold_visit. Qed.

(** X13: [main] asks for the offsets 0, 10, 20, ... once each, in this order,
    whatever the answers are: it never asks for a page again. *)
Theorem main_loop_requests (total_pages : Z) :
  fetched (trace (main_loop http_get get_text total_pages))
  = List.map (fun k => page_url (10 * Z.of_nat k)%Z)
             (seq 0 (Z.to_nat total_pages))
  /\ NoDup (fetched (trace (main_loop http_get get_text total_pages)))
  /\ length (fetched (trace (main_loop http_get get_text total_pages)))
     = Z.to_nat total_pages.
Proof.
  assert (fetched (trace (main_loop http_get get_text total_pages))
          = List.map (fun k => page_url (10 * Z.of_nat k)%Z)
                     (seq 0 (Z.to_nat total_pages))) as H.
  { unfold main_loop. destruct (fold_visit (page_numbers total_pages)
                                  {| all_records := []; trace := [] |}) as [_ ->].
    cbn [trace]. unfold page_numbers.
    rewrite <- seq_shift, !List.map_map. apply List.map_ext.
    intros k. f_equal. lia. }
  split; [exact H|]. split.
  - rewrite H. apply (NoDup_fmap_2_strong _ (seq 0 (Z.to_nat total_pages))).
    + intros x y _ _ Hxy. apply page_url_inj in Hxy. lia.
    + apply NoDup_seq.
  - rewrite H, length_map, length_seq. reflexivity.
Qed.

(** X14: with a page count of zero or less [main] asks for nothing and writes
    the header alone. *)
Theorem no_pages (total_pages : Z) :
  (total_pages <= 0)%Z ->
  main_loop http_get get_text total_pages = {| all_records := []; trace := [] |}
  /\ csv_rows http_get get_text total_pages = [List.map Py.decode FIELDNAMES].
Proof.
  intros H. unfold csv_rows, main_loop, page_numbers.
  replace (Z.to_nat total_pages) with O by lia. split; reflexivity.
Qed.

(** X15: one page more is one round more: what the earlier pages gave stays as
    it is, and the new records come after it. *)
Theorem more_pages_extend (total_pages : Z) :
  (0 <= total_pages)%Z ->
  main_loop http_get get_text (total_pages + 1)
  = visit http_get get_text (main_loop http_get get_text total_pages)
          (total_pages + 1)%Z
  /\ exists more,
       all_records (main_loop http_get get_text (total_pages + 1))
       = all_records (main_loop http_get get_text total_pages) ++ more.
Proof.
  intros H.
  assert (main_loop http_get get_text (total_pages + 1)
          = visit http_get get_text (main_loop http_get get_text total_pages)
                  (total_pages + 1)%Z) as Hstep.
  { unfold main_loop, page_numbers.
    replace (Z.to_nat (total_pages + 1)) with (Z.to_nat total_pages + 1)%nat
      by lia.
    rewrite seq_app, List.map_app, fold_left_app. cbn [seq List.map fold_left].
    f_equal. lia. }
  split; [exact Hstep|]. rewrite Hstep. unfold visit.
  destruct (fetch_page http_get ((total_pages + 1 - 1) * 10)%Z) as [html|];
    cbn [all_records]; eexists; [reflexivity|].
  rewrite app_nil_r. reflexivity.
Qed.

(** X16: every row after the header can be made again from its last column:
    that column is the line the row came from, and tokenizing it gives a
    record with that row. *)
Theorem rows_regenerate (total_pages : Z) (row : list str) :
  In row (drop 1 (csv_rows http_get get_text total_pages)) ->
  exists (l : str) (r : record),
    nth 7 row [] = l /\ parse_line l = Some r /\ csv_row r = row.
Proof.
  unfold csv_rows. cbn [drop]. intros H.
  apply in_map_iff in H as (r & <- & Hr).
  unfold main_loop in Hr.
  destruct (fold_visit (page_numbers total_pages)
                       {| all_records := []; trace := [] |}) as [Hall _].
  rewrite Hall in Hr. cbn [all_records app] in Hr.
  apply in_concat in Hr as (rs & Hrs & Hr).
  apply in_map_iff in Hrs as (k & <- & _).
  destruct (fetch_page http_get ((k - 1) * 10)%Z) as [html|]; [|destruct Hr].
  rewrite parse_records_spec in Hr.
  apply list_elem_of_In, list_elem_of_omap in Hr as (l & _ & Hp).
  exists l, r. split; [|auto].
  pose proof (parse_line_raw _ _ Hp) as Hraw.
  exact (f_equal (fun o : option str =>
                    match o with Some v => v | None => [] end) Hraw).
Qed.

End MainProperties.

(** X17: when no page can be read [main] still asks for every page once and
    pauses after each; it collects nothing and writes the header alone. *)
Theorem all_pages_fail (http_get : str -> option str) (get_text : str -> str)
    (total_pages : Z) :
  (forall url, http_get url = None) ->
  all_records (main_loop http_get get_text total_pages) = []
  /\ trace (main_loop http_get get_text total_pages)
     = concat (List.map (fun k => [Fetch (page_url ((k - 1) * 10)%Z);
                                   PauseSkipped])
                        (page_numbers total_pages))
  /\ csv_rows http_get get_text total_pages = [List.map Py.decode FIELDNAMES].
Proof.
  intros Hfail.
  assert (forall ks st,
             fold_left (visit http_get get_text) ks st
             = {| all_records := all_records st;
                  trace := trace st
                           ++ concat (List.map
                                        (fun k => [Fetch (page_url ((k - 1) * 10)%Z);
                                                   PauseSkipped]) ks) |}) as Hfold.
  { induction ks as [|k ks IH]; intros st; cbn [fold_left List.map concat].
    - rewrite app_nil_r. destruct st; reflexivity.
    - rewrite IH. unfold visit, fetch_page. rewrite Hfail.
      cbn [all_records trace]. rewrite <- app_assoc. reflexivity. }
  unfold csv_rows, main_loop. rewrite Hfold. cbn [all_records trace app].
  auto.
Qed.

(** ** Instances of the properties above *)

Lemma date_birth_shape_witness :
  let line := u"Сидорова Анна дд 01.01.05" in
  exists r : record, parse_line line = Some r
  /\ exists d, r !! "date_birth" = Some d
            /\ (d = [] \/ date_shape 2 d = true \/ date_shape 3 d = true
                \/ date_shape 4 d = true).
Proof.
  cbv zeta.
  assert (date_search (u"Сидорова Анна дд 01.01.05") = Some (17, 25)%nat) as Hs
    by (vm_compute; reflexivity).
  destruct (parse_line_date_fields _ _ _ Hs) as (r & Hp & _).
  exists r. split; [exact Hp|]. exact (date_birth_shape _ r Hp).
Defined.

Lemma csv_row_degraded_witness :
  let line := u"Список жителей" in
  ~ has_date line /\ (3 <= length line)%nat
  /\ csv_row <$> parse_line line = Some [[]; []; []; []; []; []; []; line].
Proof.
  cbv zeta.
  assert (~ has_date (u"Список жителей")) as Hd
    by (apply date_search_None_iff; vm_compute; reflexivity).
  assert (3 <= length (u"Список жителей"))%nat as Hl by (vm_compute; lia).
  split; [exact Hd|]. split; [exact Hl|]. exact (csv_row_degraded _ Hd Hl).
Defined.

Lemma no_pages_witness :
  (-3 <= 0)%Z
  /\ main_loop sample_network (fun html => html) (-3)
     = {| all_records := []; trace := [] |}
  /\ csv_rows sample_network (fun html => html) (-3)
     = [List.map Py.decode FIELDNAMES].
Proof.
  assert (-3 <= 0)%Z as H by lia.
  split; [exact H|]. exact (no_pages sample_network (fun html => html) _ H).
Defined.

Lemma more_pages_extend_witness :
  (0 <= 2)%Z
  /\ main_loop sample_network (fun html => html) (2 + 1)
     = visit sample_network (fun html => html)
             (main_loop sample_network (fun html => html) 2) (2 + 1)%Z
  /\ exists more,
       all_records (main_loop sample_network (fun html => html) (2 + 1))
       = all_records (main_loop sample_network (fun html => html) 2) ++ more.
Proof.
  assert (0 <= 2)%Z as H by lia.
  split; [exact H|].
  exact (more_pages_extend sample_network (fun html => html) _ H).
Defined.

Lemma rows_regenerate_witness :
  let row := [u"Сидорова"; u"Анна"; []; []; u"дд"; u"01.01.05"; [];
              u"Сидорова Анна дд 01.01.05"] in
  In row (drop 1 (csv_rows sample_network (fun html => html) 3))
  /\ exists (l : str) (r : record),
       nth 7 row [] = l /\ parse_line l = Some r /\ csv_row r = row.
Proof.
  cbv zeta.
  assert (In [u"Сидорова"; u"Анна"; []; []; u"дд"; u"01.01.05"; [];
              u"Сидорова Анна дд 01.01.05"]
             (drop 1 (csv_rows sample_network (fun html => html) 3))) as H
    by (vm_compute; right; left; reflexivity).
  split; [exact H|].
  exact (rows_regenerate sample_network (fun html => html) 3 _ H).
Defined.

Lemma all_pages_fail_witness :
  (forall url : str, (fun _ : str => @None str) url = None)
  /\ all_records (main_loop (fun _ => None) (fun html => html) 3) = []
  /\ trace (main_loop (fun _ => None) (fun html => html) 3)
     = concat (List.map (fun k => [Fetch (page_url ((k - 1) * 10)%Z);
                                   PauseSkipped])
                        (page_numbers 3))
  /\ csv_rows (fun _ => None) (fun html => html) 3
     = [List.map Py.decode FIELDNAMES].
Proof.
  assert (forall url : str, (fun _ : str => @None str) url = None) as H
    by reflexivity.
  split; [exact H|].
  exact (all_pages_fail (fun _ => None) (fun html => html) 3 H).
Defined.
